(** * bot_support: a shallow embedding of [main.py]

    The support bot keeps one in-memory session per Telegram user, replays a
    bounded window of the conversation to GigaChat on every turn and writes
    the transcript to a file when the user presses a resolution button.

    Python [str] values are modelled as [string] (the UTF-8 bytes of the
    text), Python [int] as [Z], the [sessions] dict as a [gmap Z session]. *)

From Stdlib Require Import ZArith Lia List Ascii String.
From stdpp Require Import base option list gmap strings pretty.

Import ListNotations.
Local Open Scope string_scope.
Local Open Scope Z_scope.

(** ** Strings *)

Definition chr (n : nat) : string := String (ascii_of_nat n) EmptyString.

(** The line feed of the f-strings' [\n]. *)
Definition LF : string := chr 10.

(** [str(n)] for a Python [int]. *)
Definition str_int (n : Z) : string := pretty n.

(** The string with the given byte values. *)
Definition bytes (l : list nat) : string :=
  fold_right (fun n s => String (ascii_of_nat n) s) EmptyString l.

(** The strings of [l] one after the other. *)
Definition join (l : list string) : string :=
  fold_right String.append EmptyString l.

(** Truthiness of a [str]: the empty string is the only falsy one. *)
Definition truthy (s : string) : bool :=
  match s with EmptyString => false | String _ _ => true end.

(** [s.zfill(width)] on the decimal digits of a field, as done by the
    [%02d]-style directives of [strftime] and [isoformat]. *)
Fixpoint zeros (n : nat) : string :=
  match n with O => EmptyString | S n' => String "0" (zeros n') end.

Definition zfill (width : nat) (s : string) : string :=
  zeros (width - String.length s) +:+ s.

Definition digits (width : nat) (n : N) : string := zfill width (pretty n).

(** [c.upper()] on one byte: ASCII lower-case letters move to upper case.
    Bytes outside ASCII are left alone; the roles this program stores are
    the ASCII literals system, user and bot. *)
Definition upper_ascii (c : ascii) : ascii :=
  let n := nat_of_ascii c in
  if ((97 <=? n) && (n <=? 122))%nat then ascii_of_nat (n - 32) else c.

Fixpoint upper (s : string) : string :=
  match s with
  | EmptyString => EmptyString
  | String c s' => String (upper_ascii c) (upper s')
  end.

(** *** [str.strip()]

    Python strips the characters for which [str.isspace()] holds. On the
    UTF-8 bytes of a text these are the following byte sequences:
    U+0009..U+000D, U+001C..U+0020, U+0085, U+00A0, U+1680, U+2000..U+200A,
    U+2028, U+2029, U+202F, U+205F and U+3000. *)
Definition WHITESPACE : list string :=
  map bytes
    [ [9]; [10]; [11]; [12]; [13]; [28]; [29]; [30]; [31]; [32];
      [194; 133]; [194; 160]; [225; 154; 128];
      [226; 128; 128]; [226; 128; 129]; [226; 128; 130]; [226; 128; 131];
      [226; 128; 132]; [226; 128; 133]; [226; 128; 134]; [226; 128; 135];
      [226; 128; 136]; [226; 128; 137]; [226; 128; 138];
      [226; 128; 168]; [226; 128; 169]; [226; 128; 175];
      [226; 129; 159]; [227; 128; 128] ]%nat.

(** [Some rest] when [s] is [p] followed by [rest]. *)
Fixpoint strip_prefix (p s : string) : option string :=
  match p, s with
  | EmptyString, _ => Some s
  | String a p', String b s' =>
      if Ascii.eqb a b then strip_prefix p' s' else None
  | String _ _, EmptyString => None
  end.

(** Removes one leading token of [toks], the first that matches. *)
Fixpoint strip_one (toks : list string) (s : string) : option string :=
  match toks with
  | [] => None
  | p :: toks' =>
      match strip_prefix p s with
      | Some rest => Some rest
      | None => strip_one toks' s
      end
  end.

(** Removes leading tokens for as long as one matches; every token is at
    least one byte long, so [String.length s] rounds are enough. *)
Fixpoint lstrip_loop (toks : list string) (fuel : nat) (s : string) : string :=
  match fuel with
  | O => s
  | S fuel' =>
      match strip_one toks s with
      | Some rest => lstrip_loop toks fuel' rest
      | None => s
      end
  end.

Definition lstrip (s : string) : string :=
  lstrip_loop WHITESPACE (String.length s) s.

Definition rstrip (s : string) : string :=
  String.rev
    (lstrip_loop (map String.rev WHITESPACE) (String.length s) (String.rev s)).

Definition strip (s : string) : string := rstrip (lstrip s).

(** ** Messages (langchain_core.messages) *)

Inductive BaseMessage : Type :=
| SystemMessage (content : string)
| HumanMessage (content : string).

Definition SYSTEM_PROMPT : string :=
  "Вы — бот технической поддержки. " +:+
  "Ваша задача: помогать пользователям решать их технические проблемы, " +:+
  "давать инструкции и советы, а если информации недостаточно — " +:+
  "просить уточнения.".

(** ** Python slicing *)

(** [l[start:]] for any integer [start]: a negative start counts from the
    end, and both directions are clamped to the list. *)
Definition slice_from {A : Type} (start : Z) (l : list A) : list A :=
  let n := Z.of_nat (length l) in
  let lo := if start <? 0 then Z.max 0 (start + n) else Z.min start n in
  drop (Z.to_nat lo) l.

(** ** Context windowing (main.py, lines 60-66) *)

Definition get_recent_messages (messages : list BaseMessage) (max_pairs : Z)
  : list BaseMessage :=
  match messages with
  | [] => [SystemMessage SYSTEM_PROMPT]
  | system :: others => [system] ++ slice_from (- (max_pairs * 2)) others
  end.

(** The only call site omits the second argument. *)
Definition get_recent_messages_default (messages : list BaseMessage)
  : list BaseMessage :=
  get_recent_messages messages 8.


(** ** datetime *)

Record datetime : Type := {
  year : N; month : N; day : N;
  hour : N; minute : N; second : N; microsecond : N
}.

(** The field ranges every Python [datetime] object satisfies. *)
Definition valid_datetime (d : datetime) : bool :=
  ((1 <=? year d) && (year d <=? 9999) &&
   (1 <=? month d) && (month d <=? 12) &&
   (1 <=? day d) && (day d <=? 31) &&
   (hour d <? 24) && (minute d <? 60) && (second d <? 60) &&
   (microsecond d <? 1000000))%N.

Definition four_digit_year (d : datetime) : bool := (1000 <=? year d)%N.

(** [d.isoformat()] of a naive datetime: the fraction is printed only when
    the microsecond field is not zero. *)
Definition isoformat (d : datetime) : string :=
  digits 4 (year d) +:+ "-" +:+ digits 2 (month d) +:+ "-" +:+
  digits 2 (day d) +:+ "T" +:+ digits 2 (hour d) +:+ ":" +:+
  digits 2 (minute d) +:+ ":" +:+ digits 2 (second d) +:+
  (if (microsecond d =? 0)%N then "" else "." +:+ digits 6 (microsecond d)).

(** [d.strftime("%Y%m%d_%H%M%S")]. The year is printed with four digits;
    below the year 1000 the C library decides whether it pads, so what is
    proved about the stamp is proved for the years from 1000 on. *)
Definition strftime_stamp (d : datetime) : string :=
  digits 4 (year d) +:+ digits 2 (month d) +:+ digits 2 (day d) +:+ "_" +:+
  digits 2 (hour d) +:+ digits 2 (minute d) +:+ digits 2 (second d).

(** ** Sessions (main.py, line 41) *)

(** One entry of a session's ["history"] list. *)
Record history_item : Type := {
  role : string;
  text : string;
  ts : string
}.

Record session : Type := {
  messages : list BaseMessage;
  history : list history_item
}.

(** ** The outside world *)

(** What a handler sends through the Telegram transport. *)
Definition InlineKeyboardMarkup : Type := list (list (string * string)).

Inductive outbound : Type :=
| Answer (body : string) (reply_markup : option InlineKeyboardMarkup)
         (parse_mode : option string)          (* message.answer(...) *)
| Reply (body : string)                        (* message.reply(...) *)
| ChatAction (action : string)                 (* message.chat.do(...) *)
| CallbackAnswer.                              (* callback.answer() *)

(** A raised exception: its class, [str(e)], and whether the class derives
    from [Exception] ([isinstance(e, Exception)]). [KeyboardInterrupt],
    [SystemExit] and [asyncio.CancelledError] derive from [BaseException]
    only. *)
Record exn : Type := {
  exn_class : string;
  exn_str : string;
  is_Exception : bool
}.

Definition KeyError (key : Z) : exn :=
  {| exn_class := "KeyError"; exn_str := str_int key; is_Exception := true |}.

Definition OSError (filename : string) : exn :=
  {| exn_class := "OSError"; exn_str := filename; is_Exception := true |}.

(** What [giga.invoke] returns: an object with a [content] attribute, or
    some other object, of which only [str(res)] is used. *)
Inductive response : Type :=
| WithContent (content : string)
| Opaque (repr : string).

(** [getattr(res, "content", str(res))]. *)
Definition content_of (res : response) : string :=
  match res with
  | WithContent content => content
  | Opaque repr => repr
  end.

(** A call of [giga.invoke] returns or raises. *)
Inductive invoke_result : Type :=
| InvokeReturns (res : response)
| InvokeRaises (e : exn).

(** The parts of the run the program does not decide: the reading of the
    n-th call of [datetime.utcnow()], the result of the n-th call of
    [giga.invoke], and whether the n-th file operation fails. *)
Record environment : Type := {
  clock : nat -> datetime;
  giga : nat -> list BaseMessage -> invoke_result;
  fs_fault : nat -> bool
}.

(** The mutable state: the [sessions] dict, the files of the working
    directory, what was sent so far, and how often each oracle was asked. *)
Record world : Type := {
  sessions : gmap Z session;
  files : gmap string string;
  sent : list outbound;
  utcnow_calls : nat;
  invoke_calls : nat;
  fs_calls : nat
}.

Definition initial_world : world :=
  {| sessions := ∅; files := ∅; sent := [];
     utcnow_calls := 0; invoke_calls := 0; fs_calls := 0 |}.

Definition set_sessions (f : gmap Z session -> gmap Z session) (w : world) : world :=
  {| sessions := f (sessions w); files := files w; sent := sent w;
     utcnow_calls := utcnow_calls w; invoke_calls := invoke_calls w;
     fs_calls := fs_calls w |}.

Definition set_files (f : gmap string string -> gmap string string) (w : world) : world :=
  {| sessions := sessions w; files := f (files w); sent := sent w;
     utcnow_calls := utcnow_calls w; invoke_calls := invoke_calls w;
     fs_calls := fs_calls w |}.

Definition push_sent (o : outbound) (w : world) : world :=
  {| sessions := sessions w; files := files w; sent := sent w ++ [o];
     utcnow_calls := utcnow_calls w; invoke_calls := invoke_calls w;
     fs_calls := fs_calls w |}.

Definition tick_utcnow (w : world) : world :=
  {| sessions := sessions w; files := files w; sent := sent w;
     utcnow_calls := S (utcnow_calls w); invoke_calls := invoke_calls w;
     fs_calls := fs_calls w |}.

Definition tick_invoke (w : world) : world :=
  {| sessions := sessions w; files := files w; sent := sent w;
     utcnow_calls := utcnow_calls w; invoke_calls := S (invoke_calls w);
     fs_calls := fs_calls w |}.

Definition tick_fs (w : world) : world :=
  {| sessions := sessions w; files := files w; sent := sent w;
     utcnow_calls := utcnow_calls w; invoke_calls := invoke_calls w;
     fs_calls := S (fs_calls w) |}.

(** ** Computations: state and exceptions *)

Inductive outcome (A : Type) : Type :=
| Returns (a : A)
| Raised (e : exn).

Arguments Returns {A} a.
Arguments Raised {A} e.

(** A Python statement sequence: it runs on a world and either returns or
    raises, and the effects made before a raise stay. *)
Definition M (A : Type) : Type := world -> outcome A * world.

Definition ret {A : Type} (a : A) : M A := fun w => (Returns a, w).

Definition raise {A : Type} (e : exn) : M A := fun w => (Raised e, w).

Definition bind {A B : Type} (m : M A) (k : A -> M B) : M B :=
  fun w =>
    match m w with
    | (Returns a, w') => k a w'
    | (Raised e, w') => (Raised e, w')
    end.

(** [try: body except Exception as e: handler(e)]. An exception whose
    class does not derive from [Exception] is not caught: it goes on. *)
Definition try_except {A : Type} (body : M A) (handler : exn -> M A) : M A :=
  fun w =>
    match body w with
    | (Returns a, w') => (Returns a, w')
    | (Raised e, w') =>
        if is_Exception e then handler e w' else (Raised e, w')
    end.

(** [for x in xs: body(x)]. *)
Fixpoint for_each {A : Type} (xs : list A) (body : A -> M unit) : M unit :=
  match xs with
  | [] => ret tt
  | x :: xs' => bind (body x) (fun _ => for_each xs' body)
  end.

Declare Scope py_scope.
Delimit Scope py_scope with py.
Notation "x <- m ;; k" := (bind m (fun x => k))
  (at level 100, m at next level, right associativity) : py_scope.
Notation "m ;; k" := (bind m (fun _ => k))
  (at level 100, right associativity) : py_scope.
Local Open Scope py_scope.

(** The world a computation leaves behind, whether it returned or raised. *)
Definition exec {A : Type} (m : M A) (w : world) : world := snd (m w).

Definition modify (f : world -> world) : M unit := fun w => (Returns tt, f w).

Definition get_sessions : M (gmap Z session) := fun w => (Returns (sessions w), w).

(** ** Fixed texts of the bot *)

Definition GREETING : string :=
  "👋 Привет! Я бот техподдержки." +:+ LF +:+ LF +:+
  "Напиши свою проблему, а я постараюсь помочь." +:+ LF +:+
  "После ответа ты сможешь отметить: «Решено» ✅ или «Не решено» ❌.".

Definition ASK_FOR_TEXT : string := "Пожалуйста, опиши проблему текстом.".

Definition GIGACHAT_ERROR : string := "Ошибка при обращении к GigaChat: ".

(** main.py, lines 52-58. *)
Definition action_keyboard : InlineKeyboardMarkup :=
  [ [ ("Решено ✅", "solved"); ("Не решено ❌", "unsolved") ] ].

(** Updates the dispatcher routes to a handler. *)
Inductive update : Type :=
| Start (user_id : Z)                           (* the /start command *)
| Message (user_id : Z) (body : option string)  (* any other message *)
| Callback (user_id : Z) (data : string).       (* an inline button *)

Section Bot.

Context (env : environment).

(** *** Primitive effects *)

(** [datetime.utcnow()]. *)
Definition utcnow : M datetime :=
  fun w => (Returns (clock env (utcnow_calls w)), tick_utcnow w).

(** An awaited call of the transport ([message.answer], [message.reply],
    [message.chat.do], [callback.answer]) that the transport accepts: what
    was sent is recorded. A call the transport refuses raises out of its
    handler; the sessions are then as the stretch before the call left them,
    which for [handle_user_message] is the state after [UserTurn] or after
    the whole handler. *)
Definition send (o : outbound) : M unit := modify (push_sent o).

(** One file operation: it raises [OSError] when the environment says
    so, and otherwise changes the files by [f]. *)
Definition file_op (filename : string)
    (f : gmap string string -> gmap string string) : M unit :=
  fun w =>
    if fs_fault env (fs_calls w)
    then (Raised (OSError filename), tick_fs w)
    else (Returns tt, set_files f (tick_fs w)).

(** [open(filename, "w")] creates the file or truncates it. *)
Definition file_open (filename : string) : M unit :=
  file_op filename (insert filename EmptyString).

(** [f.write(data)]. *)
Definition file_write (filename data : string) : M unit :=
  file_op filename (alter (fun old => old +:+ data) filename).

(** [f.close()], what leaving the [with] block does. *)
Definition file_close (filename : string) : M unit :=
  file_op filename (fun fs => fs).

(** [with open(filename, "w") as f: body]. The file is closed on the way
    out also when the body raised, and the exception goes on. *)
Definition with_open (filename : string) (body : M unit) : M unit :=
  file_open filename ;;
  fun w =>
    match body w with
    | (Returns _, w') => file_close filename w'
    | (Raised e, w') =>
        match file_close filename w' with
        | (Returns _, w'') => (Raised e, w'')
        | (Raised e', w'') => (Raised e', w'')
        end
    end.

(** [giga.invoke(payload)], through [asyncio.to_thread]. *)
Definition giga_invoke (payload : list BaseMessage) : M response :=
  fun w =>
    match giga env (invoke_calls w) payload with
    | InvokeReturns res => (Returns res, tick_invoke w)
    | InvokeRaises e => (Raised e, tick_invoke w)
    end.

(** [sessions[user_id]]: a missing key raises [KeyError]. *)
Definition session_of (user_id : Z) : M session :=
  ss <- get_sessions ;;
  match ss !! user_id with
  | Some sess => ret sess
  | None => raise (KeyError user_id)
  end.

(** [sessions[user_id]["messages"].append(m)]. *)
Definition append_message (user_id : Z) (m : BaseMessage) : M unit :=
  sess <- session_of user_id ;;
  modify (set_sessions (insert user_id
    {| messages := messages sess ++ [m]; history := history sess |})).

(** [sessions[user_id]["history"].append({"role": r, "text": t,
    "ts": datetime.utcnow().isoformat()})]: the list is looked up before
    the argument is evaluated. *)
Definition append_history (user_id : Z) (r t : string) : M unit :=
  sess <- session_of user_id ;;
  now <- utcnow ;;
  modify (set_sessions (insert user_id
    {| messages := messages sess;
       history := history sess ++
                  [ {| role := r; text := t; ts := isoformat now |} ] |})).

(** *** main.py, lines 43-50 *)
Definition init_session (user_id : Z) : M unit :=
  ss <- get_sessions ;;
  match ss !! user_id with
  | Some _ => ret tt
  | None =>
      now <- utcnow ;;
      modify (set_sessions (insert user_id
        {| messages := [SystemMessage SYSTEM_PROMPT];
           history := [ {| role := "system"; text := SYSTEM_PROMPT;
                           ts := isoformat now |} ] |}))
  end.

(** *** main.py, lines 68-74 *)
Definition call_gigachat (msgs : list BaseMessage) : M string :=
  try_except
    (let payload := get_recent_messages_default msgs in
     res <- giga_invoke payload ;;
     ret (content_of res))
    (fun e => ret (GIGACHAT_ERROR +:+ exn_str e)).

(** *** main.py, lines 76-87 *)

(** The f-string of line 81. *)
Definition dialog_filename (user_id : Z) (status stamp : string) : string :=
  "dialog_" +:+ str_int user_id +:+ "_" +:+ status +:+ "_" +:+ stamp +:+ ".txt".

(** The f-string of line 83. *)
Definition transcript_header (user_id : Z) (saved_at status : string) : string :=
  "User ID: " +:+ str_int user_id +:+ LF +:+
  "Saved at: " +:+ saved_at +:+ " UTC" +:+ LF +:+
  "Status: " +:+ status +:+ LF +:+ LF.

(** The f-string of line 85. *)
Definition transcript_entry (item : history_item) : string :=
  ts item +:+ "  " +:+ upper (role item) +:+ ": " +:+ text item +:+ LF +:+ LF.

Definition save_dialog_to_file_and_clear (user_id : Z) (status : string)
  : M string :=
  ss <- get_sessions ;;
  match ss !! user_id with
  | None => ret EmptyString
  | Some sess =>
      match history sess with
      | [] => ret EmptyString
      | _ :: _ =>
          now <- utcnow ;;
          let stamp := strftime_stamp now in
          let filename := dialog_filename user_id status stamp in
          with_open filename
            (saved <- utcnow ;;
             file_write filename
               (transcript_header user_id (isoformat saved) status) ;;
             for_each (history sess)
               (fun item => file_write filename (transcript_entry item))) ;;
          modify (set_sessions (delete user_id)) ;;
          ret filename
      end
  end.

(** *** Handlers *)

(** main.py, lines 91-98. *)
Definition cmd_start (user_id : Z) : M unit :=
  init_session user_id ;;
  send (Answer GREETING None None).

(** main.py, lines 108-115: the user's turn is stored. *)
Definition store_user_turn (user_id : Z) (body : string) : M unit :=
  init_session user_id ;;
  append_message user_id (HumanMessage body) ;;
  append_history user_id "user" body.

(** main.py, lines 122-125: the bot's turn is stored. *)
Definition store_bot_turn (user_id : Z) (bot_reply : string) : M unit :=
  append_message user_id (SystemMessage bot_reply) ;;
  append_history user_id "bot" bot_reply.

(** main.py, lines 100-128. *)
Definition handle_user_message (user_id : Z) (message_text : option string)
  : M unit :=
  let body := default EmptyString message_text in
  if negb (truthy (strip body)) then
    send (Reply ASK_FOR_TEXT)
  else
    store_user_turn user_id body ;;
    send (ChatAction "typing") ;;
    sess <- session_of user_id ;;
    bot_reply <- call_gigachat (messages sess) ;;
    store_bot_turn user_id bot_reply ;;
    send (Answer bot_reply (Some action_keyboard) None).

(** main.py, lines 130-138. *)
Definition cb_solved (user_id : Z) : M unit :=
  filename <- save_dialog_to_file_and_clear user_id "solved" ;;
  (if truthy filename
   then send (Answer ("✅ Диалог сохранён: `" +:+ filename +:+ "`")
                     None (Some "Markdown"))
   else send (Answer "✅ Диалог пуст или уже сохранён." None None)) ;;
  send CallbackAnswer.

(** main.py, lines 140-151. *)
Definition cb_unsolved (user_id : Z) : M unit :=
  filename <- save_dialog_to_file_and_clear user_id "unsolved" ;;
  (if truthy filename
   then send (Answer ("❌ Диалог сохранён: `" +:+ filename +:+
                      "`. Отправим в ServiceDesk.")
                     None (Some "Markdown"))
   else send (Answer "❌ Диалог пуст или уже сохранён." None None)) ;;
  send CallbackAnswer.

(** The dispatcher: [Command("start")], the catch-all message handler and
    the two [F.data] filters; a callback with other data has no handler. *)
Definition dispatch (u : update) : M unit :=
  match u with
  | Start user_id => cmd_start user_id
  | Message user_id body => handle_user_message user_id body
  | Callback user_id data =>
      if String.eqb data "solved" then cb_solved user_id
      else if String.eqb data "unsolved" then cb_unsolved user_id
      else ret tt
  end.

(** Handlers suspend at their [await]s, and the event loop may run other
    handlers in between. What runs without interruption is a whole handler,
    or one of the two stretches of [handle_user_message] that touch the
    session: the one before the model call and the one after it, resumed
    with whatever reply the call produced. The first stretch on its own is
    also what a handler leaves that ends early, at the typing signal or at
    the model call. *)
Inductive action : Type :=
| Deliver (u : update)
| UserTurn (user_id : Z) (body : string)
| BotTurn (user_id : Z) (bot_reply : string).

Definition perform (a : action) (w : world) : world :=
  match a with
  | Deliver u => exec (dispatch u) w
  | UserTurn user_id body => exec (store_user_turn user_id body) w
  | BotTurn user_id bot_reply => exec (store_bot_turn user_id bot_reply) w
  end.

Definition run (acts : list action) (w : world) : world :=
  fold_left (fun w a => perform a w) acts w.

End Bot.

(** ** Notions the properties are stated with *)

(** The last [k] elements of [l], in the order they have in [l]. *)
Definition last_n {A : Type} (k : nat) (l : list A) : list A :=
  rev (firstn k (rev l)).

(** The system record that opens every history. *)
Definition is_system_record (item : history_item) : Prop :=
  role item = "system" /\ text item = SYSTEM_PROMPT.

(** A session still starts with the system instruction, in both lists. *)
Definition session_ok (sess : session) : Prop :=
  messages sess !! 0%nat = Some (SystemMessage SYSTEM_PROMPT) /\
  exists item, history sess !! 0%nat = Some item /\ is_system_record item.

(** [after] holds everything [before] held, followed by what was appended. *)
Definition session_grew (before after : session) : Prop :=
  messages before `prefix_of` messages after /\
  history before `prefix_of` history after.

(** Every session of [ss] is still there in [ss'], and only grew; and if
    all sessions of [ss] start with the system instruction, so do those of
    [ss']. *)
Definition sessions_grew (ss ss' : gmap Z session) : Prop :=
  (forall user_id sess, ss !! user_id = Some sess ->
     exists sess', ss' !! user_id = Some sess' /\ session_grew sess sess') /\
  ((forall user_id sess, ss !! user_id = Some sess -> session_ok sess) ->
   (forall user_id sess, ss' !! user_id = Some sess -> session_ok sess)).

(** The computation [m] moves the [sessions] dict along the relation [R],
    whether it returns or raises. *)
Definition respects (R : relation (gmap Z session)) {A : Type} (m : M A) : Prop :=
  forall w, R (sessions w) (sessions (exec m w)).

(** The session of [user_id] may be gone, and nothing else changed. *)
Definition sessions_dropped (user_id : Z) (ss ss' : gmap Z session) : Prop :=
  ss' = ss \/ ss' = delete user_id ss.

(** A text made of whitespace characters only (the empty text included). *)
Definition whitespace_only (s : string) : Prop :=
  exists toks, Forall (fun t => t ∈ WHITESPACE) toks /\ s = join toks.

Definition is_digit (c : ascii) : bool :=
  ((48 <=? nat_of_ascii c) && (nat_of_ascii c <=? 57))%nat.

Fixpoint all_digits (s : string) : bool :=
  match s with
  | EmptyString => true
  | String c s' => is_digit c && all_digits s'
  end.

(** Exactly [k] characters, all of them decimal digits. *)
Definition digit_string (k : nat) (s : string) : bool :=
  (String.length s =? k)%nat && all_digits s.

(** The shape [YYYYMMDD_HHMMSS]: eight digits, an underscore, six digits. *)
Definition is_stamp (s : string) : bool :=
  (String.length s =? 15)%nat &&
  all_digits (substring 0 8 s) &&
  String.eqb (substring 8 1 s) "_" &&
  all_digits (substring 9 6 s).

(** The file name as the specification words it, without an extension. *)
Definition filename_as_specified (user_id : Z) (status stamp : string) : string :=
  "dialog_" +:+ str_int user_id +:+ "_" +:+ status +:+ "_" +:+ stamp.

(** Every record of [items] as an entry, first to last. *)
Definition transcript_body (items : list history_item) : string :=
  join (map transcript_entry items).

(** The header followed by every record of [items]. *)
Definition transcript (user_id : Z) (saved_at status : string)
    (items : list history_item) : string :=
  transcript_header user_id saved_at status +:+ transcript_body items.

(** The file operations [n], [n+1], ..., [n+k-1] all succeed. *)
Definition no_fault (env : environment) (n k : nat) : Prop :=
  forall i, (i < k)%nat -> fs_fault env (n + i) = false.

(** ** A concrete run

    The clock advances one second per reading, the model answers B and then
    D, and no file operation fails. User 42 writes A and then C. *)
Definition demo_clock (n : nat) : datetime :=
  {| year := 2024; month := 1; day := 2;
     hour := 3; minute := 4; second := N.of_nat n; microsecond := 0 |}.

Definition demo_env : environment :=
  {| clock := demo_clock;
     giga := fun n _ =>
       InvokeReturns (WithContent (if (n =? 0)%nat then "B" else "D"));
     fs_fault := fun _ => false |}.

Definition demo_world : world :=
  run demo_env
    [ Deliver (Message 42 (Some "A")); Deliver (Message 42 (Some "C")) ]
    initial_world.

Definition demo_history : list history_item :=
  [ {| role := "system"; text := SYSTEM_PROMPT; ts := "2024-01-02T03:04:00" |};
    {| role := "user"; text := "A"; ts := "2024-01-02T03:04:01" |};
    {| role := "bot"; text := "B"; ts := "2024-01-02T03:04:02" |};
    {| role := "user"; text := "C"; ts := "2024-01-02T03:04:03" |};
    {| role := "bot"; text := "D"; ts := "2024-01-02T03:04:04" |} ].

(** The session of user 42 after the first exchange, and after both. *)
Definition demo_first_turn : session :=
  {| messages := [ SystemMessage SYSTEM_PROMPT; HumanMessage "A";
                   SystemMessage "B" ];
     history := firstn 3 demo_history |}.

Definition demo_session : session :=
  {| messages := [ SystemMessage SYSTEM_PROMPT; HumanMessage "A";
                   SystemMessage "B"; HumanMessage "C"; SystemMessage "D" ];
     history := demo_history |}.

(** The user then presses the button for a solved problem. *)
Definition demo_saved : outcome string * world :=
  save_dialog_to_file_and_clear demo_env 42 "solved" demo_world.

Definition demo_filename : string := "dialog_42_solved_20240102_030405.txt".

(** The four turns of the exchange, without the system record. *)
Definition demo_turns : list history_item := skipn 1 demo_history.

(** The same run with a model that is down, with a model call that is
    cancelled, and with a disk on which the third file operation (the first
    entry's write) fails. *)
Definition connect_error : exn :=
  {| exn_class := "ConnectError"; exn_str := "timed out"; is_Exception := true |}.

Definition cancelled_error : exn :=
  {| exn_class := "CancelledError"; exn_str := EmptyString;
     is_Exception := false |}.

Definition down_env : environment :=
  {| clock := demo_clock;
     giga := fun _ _ => InvokeRaises connect_error;
     fs_fault := fun _ => false |}.

Definition cancelled_env : environment :=
  {| clock := demo_clock;
     giga := fun _ _ => InvokeRaises cancelled_error;
     fs_fault := fun _ => false |}.

Definition full_disk_env : environment :=
  {| clock := demo_clock;
     giga := giga demo_env;
     fs_fault := fun n => (n =? 2)%nat |}.

Definition demo_messages : list BaseMessage :=
  [ SystemMessage "s"; HumanMessage "a"; SystemMessage "b";
    HumanMessage "c"; SystemMessage "d" ].

(** ** Proof tactics *)

(** Splits [digit_string k s = true], for a string [s] cut down to its
    characters, into one [is_digit] fact per character. *)
Ltac digit_facts H :=
  apply andb_true_iff in H; destruct H as [_ H]; cbn [all_digits] in H;
  repeat (let Hd := fresh "Hdigit" in
          apply andb_true_iff in H; destruct H as [Hd H]);
  clear H.

(** ** Notions for the handlers *)

(** The session [init_session] creates when its clock reading prints as
    [stamp]. *)
Definition fresh_session (stamp : string) : session :=
  {| messages := [SystemMessage SYSTEM_PROMPT];
     history := [ {| role := "system"; text := SYSTEM_PROMPT; ts := stamp |} ] |}.

(** A session with the user's message stored, and with the bot's reply
    stored. *)
Definition with_user_turn (sess : session) (body stamp : string) : session :=
  {| messages := messages sess ++ [HumanMessage body];
     history := history sess ++ [ {| role := "user"; text := body; ts := stamp |} ] |}.

Definition with_bot_turn (sess : session) (bot_reply stamp : string) : session :=
  {| messages := messages sess ++ [SystemMessage bot_reply];
     history := history sess ++
                [ {| role := "bot"; text := bot_reply; ts := stamp |} ] |}.

(** The text [call_gigachat] makes of what [giga.invoke] did. *)
Definition reply_text (res : invoke_result) : string :=
  match res with
  | InvokeReturns r => content_of r
  | InvokeRaises e => GIGACHAT_ERROR +:+ exn_str e
  end.

(** The computation [m] leaves the part [proj] of the world alone, whether
    it returns or raises. *)
Definition keeps {B : Type} (proj : world -> B) {A : Type} (m : M A) : Prop :=
  forall w, proj (exec m w) = proj w.

(** A history record that stands for a stored turn: the same text, and
    the role that belongs to the message's class. A reply of the model is
    stored as a [SystemMessage] and recorded with the role bot. *)
Definition mirrors (m : BaseMessage) (h : history_item) : Prop :=
  match m with
  | SystemMessage c => role h = "bot" /\ text h = c
  | HumanMessage c => role h = "user" /\ text h = c
  end.

(** The history of a session mirrors its messages: the system record for
    the system instruction, then one record per turn, in the same order. *)
Definition session_mirrored (sess : session) : Prop :=
  exists stamp turns records,
    messages sess = SystemMessage SYSTEM_PROMPT :: turns /\
    history sess
      = {| role := "system"; text := SYSTEM_PROMPT; ts := stamp |} :: records /\
    Forall2 mirrors turns records.

(** What [giga.invoke] did is an exception that [call_gigachat] does not
    catch. *)
Definition uncaught (res : invoke_result) : bool :=
  match res with
  | InvokeReturns _ => false
  | InvokeRaises e => negb (is_Exception e)
  end.

(** The messages of completed exchanges: question, answer, question, ... *)
Definition exchanges (pairs : list (string * string)) : list BaseMessage :=
  flat_map (fun qa => [HumanMessage (fst qa); SystemMessage (snd qa)]) pairs.

(** The user an update, and an uninterrupted stretch, is about. *)
Definition update_user (u : update) : Z :=
  match u with
  | Start user_id => user_id
  | Message user_id _ => user_id
  | Callback user_id _ => user_id
  end.

Definition action_user (a : action) : Z :=
  match a with
  | Deliver u => update_user u
  | UserTurn user_id _ => user_id
  | BotTurn user_id _ => user_id
  end.

(** A stretch other than the resumption of a handler after its model
    call. In a run of such stretches no handler goes on after another one
    ran: each handler runs to its end or ends early, after the user's turn
    was stored. *)
Definition not_bot_turn (a : action) : bool :=
  match a with
  | BotTurn _ _ => false
  | _ => true
  end.

(** Every reply stored in [msgs] stands directly behind a message of the
    user. *)
Definition replies_follow (msgs : list BaseMessage) : Prop :=
  forall i c, msgs !! S i = Some (SystemMessage c) ->
              exists q, msgs !! i = Some (HumanMessage q).

(** The character [c] does not occur in [s]. *)
Fixpoint free_of (c : ascii) (s : string) : bool :=
  match s with
  | EmptyString => true
  | String a s' => negb (Ascii.eqb a c) && free_of c s'
  end.

(** The world [w] with the sessions replaced by [ss] and [ticks] more
    clock readings taken. *)
Definition advance (ss : gmap Z session) (ticks : nat) (w : world) : world :=
  {| sessions := ss; files := files w; sent := sent w;
     utcnow_calls := ticks + utcnow_calls w; invoke_calls := invoke_calls w;
     fs_calls := fs_calls w |}.

(** The session a handler works on after [init_session]: the stored one,
    or the fresh one, which costs one clock reading. *)
Definition init_ticks (user_id : Z) (w : world) : nat :=
  match sessions w !! user_id with
  | Some _ => 0
  | None => 1
  end.

Definition resumed (env : environment) (user_id : Z) (w : world) : session :=
  match sessions w !! user_id with
  | Some sess => sess
  | None => fresh_session (isoformat (clock env (utcnow_calls w)))
  end.

(** The session of [other], if any, is the same in [ss'] as in [ss]. *)
Definition same_at (other : Z) (ss ss' : gmap Z session) : Prop :=
  ss' !! other = ss !! other.

(** The texts of the two resolution handlers. *)
Definition SOLVED_SAVED (filename : string) : string :=
  "✅ Диалог сохранён: `" +:+ filename +:+ "`".

Definition UNSOLVED_SAVED (filename : string) : string :=
  "❌ Диалог сохранён: `" +:+ filename +:+ "`. Отправим в ServiceDesk.".

Definition SOLVED_EMPTY : string := "✅ Диалог пуст или уже сохранён.".

Definition UNSOLVED_EMPTY : string := "❌ Диалог пуст или уже сохранён.".

(** Eight completed exchanges, for the window. *)
Definition demo_pairs : list (string * string) :=
  [ ("q1", "a1"); ("q2", "a2"); ("q3", "a3"); ("q4", "a4");
    ("q5", "a5"); ("q6", "a6"); ("q7", "a7"); ("q8", "a8") ].

(** The two messages of the concrete run. *)
Definition demo_acts : list action :=
  [ Deliver (Message 42 (Some "A")); Deliver (Message 42 (Some "C")) ].

(** The concrete run with a third message whose handler ends early, after
    the user's turn was stored. *)
Definition cut_short_acts : list action :=
  [ Deliver (Message 42 (Some "A")); Deliver (Message 42 (Some "C"));
    UserTurn 42 "E" ].

Definition cut_short_session : session :=
  with_user_turn demo_session "E" "2024-01-02T03:04:05".

(** * Properties *)

(** ** The model on small inputs *)

Example slice_from_last_two : slice_from (-2) [1; 2; 3; 4; 5] = [4; 5].
Proof. reflexivity. Qed.

Example slice_from_past_the_start : slice_from (-9) [1; 2; 3] = [1; 2; 3].
Proof. reflexivity. Qed.

Example slice_from_minus_zero : slice_from (- 0) [1; 2; 3] = [1; 2; 3].
Proof. reflexivity. Qed.

Example str_int_negative : str_int (-42) = "-42".
Proof. reflexivity. Qed.

Example strip_text :
  strip (" " +:+ bytes [226; 128; 128]%nat +:+ "a b" +:+ bytes [194; 160; 10]%nat)
  = "a b".
Proof. reflexivity. Qed.

Example strip_no_break_space : strip (bytes [194; 160]%nat) = EmptyString.
Proof. reflexivity. Qed.

Example upper_role : upper "system" = "SYSTEM".
Proof. reflexivity. Qed.

Example isoformat_whole_second : isoformat (demo_clock 6) = "2024-01-02T03:04:06".
Proof. reflexivity. Qed.

Example isoformat_fraction :
  isoformat {| year := 2024; month := 11; day := 3; hour := 23; minute := 59;
               second := 7; microsecond := 1500 |}
  = "2024-11-03T23:59:07.001500".
Proof. reflexivity. Qed.

Example strftime_stamp_demo : strftime_stamp (demo_clock 5) = "20240102_030405".
Proof. reflexivity. Qed.

Example window_of_one_pair :
  get_recent_messages demo_messages 1
  = [ SystemMessage "s"; HumanMessage "c"; SystemMessage "d" ].
Proof. reflexivity. Qed.

Example window_default_keeps_short_lists :
  get_recent_messages_default demo_messages = demo_messages.
Proof. reflexivity. Qed.

(** ** Context windowing *)

Lemma slice_from_negative {A : Type} (k : Z) (l : list A) :
  0 < k -> slice_from (- k) l = drop (length l - Z.to_nat k) l.
Proof.
  intros Hk. unfold slice_from.
  destruct (Z.ltb_spec (- k) 0) as [_ | Hge]; [ | lia ].
  f_equal. lia.
Qed.

Lemma last_n_drop {A : Type} (k : nat) (l : list A) :
  last_n k l = drop (length l - k) l.
Proof.
  unfold last_n. rewrite firstn_rev, rev_involutive. reflexivity.
Qed.

(** C1 (as amended). For a non-empty list of messages and [max_pairs >= 1],
    [get_recent_messages] returns a list that starts with [messages[0]], has
    length [min(len(messages), 1 + 2*max_pairs)], and continues with the last
    [2*max_pairs] elements of [messages[1:]] in their order; for the empty
    list it returns the one-element list holding the system instruction. *)
Theorem get_recent_messages_window (msgs : list BaseMessage) (max_pairs : Z) :
  1 <= max_pairs ->
  (msgs = [] ->
   get_recent_messages msgs max_pairs = [SystemMessage SYSTEM_PROMPT]) /\
  (msgs <> [] ->
   head (get_recent_messages msgs max_pairs) = head msgs /\
   Z.of_nat (length (get_recent_messages msgs max_pairs))
     = Z.min (Z.of_nat (length msgs)) (1 + 2 * max_pairs) /\
   tail (get_recent_messages msgs max_pairs)
     = last_n (Z.to_nat (2 * max_pairs)) (tail msgs)).
Proof.
  intros Hpairs. split.
  - intros ->. reflexivity.
  - destruct msgs as [ | system others ]; [ congruence | intros _ ].
    unfold get_recent_messages.
    rewrite slice_from_negative by lia.
    replace (max_pairs * 2) with (2 * max_pairs) by lia.
    cbn [app head tail length].
    rewrite last_n_drop. repeat split.
    rewrite length_drop. lia.
Qed.

(** C1 (witness): a system message and four turns, windowed to one pair. *)
Lemma get_recent_messages_window_witness :
  1 <= 1 /\
  head (get_recent_messages demo_messages 1) = Some (SystemMessage "s") /\
  Z.of_nat (length (get_recent_messages demo_messages 1)) = 3 /\
  tail (get_recent_messages demo_messages 1)
    = [ HumanMessage "c"; SystemMessage "d" ].
Proof.
  assert (Hpairs : 1 <= 1) by lia.
  split; [ exact Hpairs | ].
  destruct (get_recent_messages_window demo_messages 1 Hpairs) as [_ Hwin].
  destruct Hwin as (Hhead & Hlen & Htail); [ discriminate | ].
  split; [ exact Hhead | ]. split; [ exact Hlen | exact Htail ].
Defined.

(** C1 (counterexample). On the empty list the result is the default system
    instruction: its length is 1 where the claimed [min(0, 17)] is 0, and it
    has a first element where [messages[0]] does not exist. *)
Lemma get_recent_messages_empty_counterexample :
  get_recent_messages [] 8 = [SystemMessage SYSTEM_PROMPT] /\
  Z.of_nat (length (get_recent_messages [] 8)) = 1 /\
  Z.min (Z.of_nat (length (@nil BaseMessage))) (1 + 2 * 8) = 0 /\
  head (get_recent_messages [] 8) <> head (@nil BaseMessage).
Proof.
  repeat split. discriminate.
Qed.

(** With [max_pairs = 0] the slice [others[-0:]] is the whole of [others]:
    nothing is cut, although [1 + 2*0] is 1. *)
Lemma get_recent_messages_zero_pairs (msgs : list BaseMessage) :
  msgs <> [] -> get_recent_messages msgs 0 = msgs.
Proof.
  destruct msgs as [ | system others ]; [ congruence | intros _ ].
  unfold get_recent_messages, slice_from.
  change (- (0 * 2)) with 0. change (0 <? 0) with false. cbv iota.
  rewrite Z.min_l by lia. reflexivity.
Qed.

(** The five messages of the small example with [max_pairs = 0]: all five
    come back, where [min(5, 1 + 2*0)] is 1. *)
Lemma get_recent_messages_zero_pairs_witness :
  get_recent_messages demo_messages 0 = demo_messages /\
  Z.of_nat (length (get_recent_messages demo_messages 0)) = 5 /\
  Z.min (Z.of_nat (length demo_messages)) (1 + 2 * 0) = 1.
Proof.
  assert (Hnonempty : demo_messages <> []) by discriminate.
  split; [ exact (get_recent_messages_zero_pairs demo_messages Hnonempty) | ].
  split; reflexivity.
Defined.

(** ** How computations move the sessions *)

Section Respects.

Context (R : relation (gmap Z session)) `{!PreOrder R}.

Lemma respects_ret {A : Type} (a : A) : respects R (ret a).
Proof. intros w. reflexivity. Qed.

Lemma respects_raise {A : Type} (e : exn) : respects R (@raise A e).
Proof. intros w. reflexivity. Qed.

Lemma respects_bind {A B : Type} (m : M A) (k : A -> M B) :
  respects R m -> (forall a, respects R (k a)) -> respects R (bind m k).
Proof.
  intros Hm Hk w. specialize (Hm w). unfold exec, bind in *.
  destruct (m w) as [[a | e] w']; cbn in *; [ | exact Hm ].
  etransitivity; [ exact Hm | apply Hk ].
Qed.

Lemma respects_try_except {A : Type} (body : M A) (handler : exn -> M A) :
  respects R body -> (forall e, respects R (handler e)) ->
  respects R (try_except body handler).
Proof.
  intros Hm Hk w. specialize (Hm w). unfold exec, try_except in *.
  destruct (body w) as [[a | e] w']; cbn in *; [ exact Hm | ].
  destruct (is_Exception e); [ | exact Hm ].
  etransitivity; [ exact Hm | apply Hk ].
Qed.

Lemma respects_for_each {A : Type} (xs : list A) (body : A -> M unit) :
  (forall x, respects R (body x)) -> respects R (for_each xs body).
Proof.
  intros Hbody. induction xs as [ | x xs IH ]; cbn [for_each].
  - apply respects_ret.
  - apply respects_bind; [ apply Hbody | intros _; exact IH ].
Qed.

Lemma respects_eq {A : Type} (m : M A) : respects eq m -> respects R m.
Proof. intros Hm w. rewrite <- (Hm w). reflexivity. Qed.

End Respects.

Section Untouched.

Context (env : environment).

Lemma utcnow_keeps_sessions : respects eq (utcnow env).
Proof. intros w. reflexivity. Qed.

Lemma send_keeps_sessions (o : outbound) : respects eq (send o).
Proof. intros w. reflexivity. Qed.

Lemma get_sessions_keeps_sessions : respects eq get_sessions.
Proof. intros w. reflexivity. Qed.

Lemma file_op_keeps_sessions (filename : string)
    (f : gmap string string -> gmap string string) :
  respects eq (file_op env filename f).
Proof.
  intros w. unfold exec, file_op. destruct (fs_fault env (fs_calls w)); reflexivity.
Qed.

Lemma with_open_keeps_sessions (filename : string) (body : M unit) :
  respects eq body -> respects eq (with_open env filename body).
Proof.
  intros Hbody. unfold with_open. apply respects_bind; [ typeclasses eauto | | ].
  { apply file_op_keeps_sessions. }
  intros _ w. specialize (Hbody w). unfold exec in *.
  destruct (body w) as [[[] | e] w']; cbn in Hbody.
  - rewrite Hbody. apply (file_op_keeps_sessions filename (fun fs => fs) w').
  - pose proof (file_op_keeps_sessions filename (fun fs => fs) w') as Hclose.
    unfold exec, file_close in *.
    destruct (file_op env filename (fun fs => fs) w') as [[[] | e'] w''];
      cbn in *; congruence.
Qed.

Lemma giga_invoke_keeps_sessions (payload : list BaseMessage) :
  respects eq (giga_invoke env payload).
Proof.
  intros w. unfold exec, giga_invoke.
  destruct (giga env (invoke_calls w) payload); reflexivity.
Qed.

Lemma call_gigachat_keeps_sessions (msgs : list BaseMessage) :
  respects eq (call_gigachat env msgs).
Proof.
  unfold call_gigachat. apply respects_try_except; [ typeclasses eauto | | ].
  - apply respects_bind; [ typeclasses eauto | | ].
    + apply giga_invoke_keeps_sessions.
    + intros res. apply respects_ret. typeclasses eauto.
  - intros e. apply respects_ret. typeclasses eauto.
Qed.

Lemma session_of_keeps_sessions (user_id : Z) : respects eq (session_of user_id).
Proof.
  intros w. unfold exec, session_of, bind, get_sessions.
  destruct (sessions w !! user_id); reflexivity.
Qed.

End Untouched.

(** ** Sessions only grow, and keep their first elements *)

Lemma session_grew_preorder : PreOrder session_grew.
Proof.
  split.
  - intros sess. split; reflexivity.
  - intros s1 s2 s3 [Hm12 Hh12] [Hm23 Hh23].
    split; etransitivity; eassumption.
Qed.

#[local] Existing Instance session_grew_preorder.

Lemma sessions_grew_preorder : PreOrder sessions_grew.
Proof.
  split.
  - intros ss. split; [ | tauto ].
    intros user_id sess Hsess. exists sess. split; [ exact Hsess | reflexivity ].
  - intros ss1 ss2 ss3 [Hgrow12 Hok12] [Hgrow23 Hok23]. split; [ | tauto ].
    intros user_id sess Hsess.
    destruct (Hgrow12 _ _ Hsess) as (sess2 & Hsess2 & Hgrew2).
    destruct (Hgrow23 _ _ Hsess2) as (sess3 & Hsess3 & Hgrew3).
    exists sess3. split; [ exact Hsess3 | etransitivity; eassumption ].
Qed.

#[local] Existing Instance sessions_grew_preorder.

Lemma sessions_dropped_preorder (user_id : Z) :
  PreOrder (sessions_dropped user_id).
Proof.
  split.
  - intros ss. left. reflexivity.
  - intros ss1 ss2 ss3 [-> | ->] [-> | ->]; unfold sessions_dropped; auto.
    right. apply delete_delete_eq.
Qed.

#[local] Existing Instance sessions_dropped_preorder.

Lemma session_ok_grew (before after : session) :
  session_grew before after -> session_ok before -> session_ok after.
Proof.
  intros [[ms Hms] [hs Hhs]] [Hmsg (item & Hitem & Hsys)].
  unfold session_ok. rewrite Hms, Hhs. split.
  - apply lookup_app_l_Some. exact Hmsg.
  - exists item. split; [ apply lookup_app_l_Some; exact Hitem | exact Hsys ].
Qed.

(** Replacing a session by one that grew out of it. *)
Lemma sessions_grew_update (ss : gmap Z session) (user_id : Z)
    (sess sess' : session) :
  ss !! user_id = Some sess -> session_grew sess sess' ->
  sessions_grew ss (<[user_id := sess']> ss).
Proof.
  intros Hsess Hgrew. split.
  - intros other s Hs. destruct (decide (other = user_id)) as [-> | Hne].
    + exists sess'. rewrite lookup_insert_eq. split; [ reflexivity | ].
      congruence.
    + exists s. rewrite lookup_insert_ne by congruence.
      split; [ exact Hs | reflexivity ].
  - intros Hok other s. destruct (decide (other = user_id)) as [-> | Hne].
    + rewrite lookup_insert_eq. intros [= <-].
      eapply session_ok_grew; [ exact Hgrew | eapply Hok; exact Hsess ].
    + rewrite lookup_insert_ne by congruence. apply Hok.
Qed.

(** Adding a well-formed session under a key that was free. *)
Lemma sessions_grew_fresh (ss : gmap Z session) (user_id : Z) (sess' : session) :
  ss !! user_id = None -> session_ok sess' ->
  sessions_grew ss (<[user_id := sess']> ss).
Proof.
  intros Hfree Hnew. split.
  - intros other s Hs. exists s.
    rewrite lookup_insert_ne by congruence. split; [ exact Hs | reflexivity ].
  - intros Hok other s. destruct (decide (other = user_id)) as [-> | Hne].
    + rewrite lookup_insert_eq. intros [= <-]. exact Hnew.
    + rewrite lookup_insert_ne by congruence. apply Hok.
Qed.

Section Growth.

Context (env : environment).

Lemma init_session_grows (user_id : Z) :
  respects sessions_grew (init_session env user_id).
Proof.
  intros w. unfold exec, init_session, bind, get_sessions.
  destruct (sessions w !! user_id) as [sess | ] eqn:Hsess; cbn.
  - reflexivity.
  - apply sessions_grew_fresh; [ exact Hsess | ].
    split; [ reflexivity | ]. eexists. split; [ reflexivity | ].
    split; reflexivity.
Qed.

Lemma append_message_grows (user_id : Z) (m : BaseMessage) :
  respects sessions_grew (append_message user_id m).
Proof.
  intros w. unfold exec, append_message, session_of, bind, get_sessions.
  destruct (sessions w !! user_id) as [sess | ] eqn:Hsess; cbn.
  - eapply sessions_grew_update; [ exact Hsess | ].
    split; cbn; [ apply prefix_app_r | ]; reflexivity.
  - reflexivity.
Qed.

Lemma append_history_grows (user_id : Z) (r t : string) :
  respects sessions_grew (append_history env user_id r t).
Proof.
  intros w. unfold exec, append_history, session_of, bind, get_sessions.
  destruct (sessions w !! user_id) as [sess | ] eqn:Hsess; cbn.
  - eapply sessions_grew_update; [ exact Hsess | ].
    split; cbn; [ | apply prefix_app_r ]; reflexivity.
  - reflexivity.
Qed.

Lemma store_user_turn_grows (user_id : Z) (body : string) :
  respects sessions_grew (store_user_turn env user_id body).
Proof.
  unfold store_user_turn.
  apply respects_bind; [ typeclasses eauto | apply init_session_grows | intros _ ].
  apply respects_bind; [ typeclasses eauto | apply append_message_grows | intros _ ].
  apply append_history_grows.
Qed.

Lemma store_bot_turn_grows (user_id : Z) (bot_reply : string) :
  respects sessions_grew (store_bot_turn env user_id bot_reply).
Proof.
  unfold store_bot_turn.
  apply respects_bind; [ typeclasses eauto | apply append_message_grows | intros _ ].
  apply append_history_grows.
Qed.

Lemma cmd_start_grows (user_id : Z) :
  respects sessions_grew (cmd_start env user_id).
Proof.
  unfold cmd_start.
  apply respects_bind; [ typeclasses eauto | apply init_session_grows | intros _ ].
  apply respects_eq; [ typeclasses eauto | apply send_keeps_sessions ].
Qed.

Lemma handle_user_message_grows (user_id : Z) (message_text : option string) :
  respects sessions_grew (handle_user_message env user_id message_text).
Proof.
  unfold handle_user_message.
  destruct (negb (truthy (strip (default EmptyString message_text)))).
  { apply respects_eq; [ typeclasses eauto | apply send_keeps_sessions ]. }
  apply respects_bind; [ typeclasses eauto | apply store_user_turn_grows | intros _ ].
  apply respects_bind; [ typeclasses eauto | | intros _ ].
  { apply respects_eq; [ typeclasses eauto | apply send_keeps_sessions ]. }
  apply respects_bind; [ typeclasses eauto | | intros sess ].
  { apply respects_eq; [ typeclasses eauto | apply session_of_keeps_sessions ]. }
  apply respects_bind; [ typeclasses eauto | | intros bot_reply ].
  { apply respects_eq; [ typeclasses eauto | apply call_gigachat_keeps_sessions ]. }
  apply respects_bind; [ typeclasses eauto | apply store_bot_turn_grows | intros _ ].
  apply respects_eq; [ typeclasses eauto | apply send_keeps_sessions ].
Qed.

Lemma save_dialog_drops (user_id : Z) (status : string) :
  respects (sessions_dropped user_id)
    (save_dialog_to_file_and_clear env user_id status).
Proof.
  unfold save_dialog_to_file_and_clear.
  apply respects_bind; [ typeclasses eauto | | intros ss ].
  { apply respects_eq; [ typeclasses eauto | apply get_sessions_keeps_sessions ]. }
  destruct (ss !! user_id) as [sess | ]; [ | apply respects_ret; typeclasses eauto ].
  destruct (history sess) as [ | item items ] eqn:Hhist;
    [ apply respects_ret; typeclasses eauto | rewrite <- Hhist ].
  apply respects_bind; [ typeclasses eauto | | intros now ].
  { apply respects_eq; [ typeclasses eauto | apply utcnow_keeps_sessions ]. }
  apply respects_bind; [ typeclasses eauto | | intros _ ].
  { apply respects_eq; [ typeclasses eauto | ].
    apply with_open_keeps_sessions.
    apply respects_bind; [ typeclasses eauto | apply utcnow_keeps_sessions | intros saved ].
    apply respects_bind; [ typeclasses eauto | apply file_op_keeps_sessions | intros _ ].
    apply respects_for_each; [ typeclasses eauto | intros it ].
    apply file_op_keeps_sessions. }
  apply respects_bind; [ typeclasses eauto | | intros _; apply respects_ret; typeclasses eauto ].
  intros w. right. reflexivity.
Qed.

End Growth.

Section Lifetime.

Context (env : environment).

Lemma cb_solved_drops (user_id : Z) :
  respects (sessions_dropped user_id) (cb_solved env user_id).
Proof.
  unfold cb_solved.
  apply respects_bind; [ typeclasses eauto | apply save_dialog_drops | intros filename ].
  apply respects_eq; [ typeclasses eauto | ].
  apply respects_bind; [ typeclasses eauto | | intros _; apply send_keeps_sessions ].
  destruct (truthy filename); apply send_keeps_sessions.
Qed.

Lemma cb_unsolved_drops (user_id : Z) :
  respects (sessions_dropped user_id) (cb_unsolved env user_id).
Proof.
  unfold cb_unsolved.
  apply respects_bind; [ typeclasses eauto | apply save_dialog_drops | intros filename ].
  apply respects_eq; [ typeclasses eauto | ].
  apply respects_bind; [ typeclasses eauto | | intros _; apply send_keeps_sessions ].
  destruct (truthy filename); apply send_keeps_sessions.
Qed.

(** What one uninterrupted stretch does to the sessions: they grow, or a
    resolution callback drops the session of its user. *)
Lemma perform_sessions (a : action) (w : world) :
  sessions_grew (sessions w) (sessions (perform env a w)) \/
  exists user_id,
    (a = Deliver (Callback user_id "solved") \/
     a = Deliver (Callback user_id "unsolved")) /\
    sessions_dropped user_id (sessions w) (sessions (perform env a w)).
Proof.
  destruct a as [ [ user_id | user_id body | user_id data ] | user_id body | user_id bot_reply ];
    cbn [perform dispatch].
  - left. apply cmd_start_grows.
  - left. apply handle_user_message_grows.
  - destruct (String.eqb_spec data "solved") as [-> | Hsolved].
    { right. exists user_id. split; [ left; reflexivity | apply cb_solved_drops ]. }
    destruct (String.eqb_spec data "unsolved") as [-> | Hunsolved].
    { right. exists user_id. split; [ right; reflexivity | apply cb_unsolved_drops ]. }
    left. reflexivity.
  - left. apply store_user_turn_grows.
  - left. apply store_bot_turn_grows.
Qed.

Lemma perform_keeps_ok (a : action) (w : world) :
  (forall user_id sess, sessions w !! user_id = Some sess -> session_ok sess) ->
  forall user_id sess,
    sessions (perform env a w) !! user_id = Some sess -> session_ok sess.
Proof.
  intros Hok.
  destruct (perform_sessions a w) as [ [_ Hkeep] | (who & _ & [-> | ->]) ].
  - apply Hkeep. exact Hok.
  - exact Hok.
  - intros user_id sess Hsess. apply lookup_delete_Some in Hsess.
    eapply Hok. apply Hsess.
Qed.

Lemma run_keeps_ok (acts : list action) (w : world) :
  (forall user_id sess, sessions w !! user_id = Some sess -> session_ok sess) ->
  forall user_id sess,
    sessions (run env acts w) !! user_id = Some sess -> session_ok sess.
Proof.
  revert w. induction acts as [ | a acts IH ]; intros w Hok; cbn [run fold_left].
  - exact Hok.
  - apply IH. apply perform_keeps_ok. exact Hok.
Qed.

(** C2. Whatever happened since the process started (whole handlers, or
    the two session-writing stretches of [handle_user_message] run on their
    own between other handlers), a session that exists starts with the
    system instruction in [messages] and with the system record in
    [history]. One more stretch leaves it in the dict with both lists
    extended at the end, or removes it whole, and only a resolution
    callback of that user removes it. *)
Theorem session_heads_fixed_and_append_only
    (acts : list action) (a : action) (user_id : Z) (sess : session) :
  sessions (run env acts initial_world) !! user_id = Some sess ->
  session_ok sess /\
  ((exists sess',
      sessions (perform env a (run env acts initial_world)) !! user_id = Some sess' /\
      session_grew sess sess') \/
   (sessions (perform env a (run env acts initial_world)) !! user_id = None /\
    (a = Deliver (Callback user_id "solved") \/
     a = Deliver (Callback user_id "unsolved")))).
Proof.
  intros Hsess. split.
  { eapply run_keeps_ok; [ | exact Hsess ].
    intros other s Hs. cbn in Hs. rewrite lookup_empty in Hs. discriminate. }
  set (w := run env acts initial_world) in *.
  destruct (perform_sessions a w) as [ [Hgrow _] | (who & Hwho & [Heq | Heq]) ].
  - left. apply Hgrow. exact Hsess.
  - left. exists sess. rewrite Heq. split; [ exact Hsess | reflexivity ].
  - destruct (decide (who = user_id)) as [-> | Hne].
    + right. rewrite Heq, lookup_delete_eq. split; [ reflexivity | exact Hwho ].
    + left. exists sess. rewrite Heq, lookup_delete_ne by congruence.
      split; [ exact Hsess | reflexivity ].
Qed.

End Lifetime.

(** ** The model gateway *)

Section Gateway.

Context (env : environment).

(** C3 (as amended). When [giga.invoke] raises, on the windowed messages,
    an exception [e] whose class derives from [Exception], [call_gigachat]
    raises nothing: it returns the text made of the fixed error prefix
    followed by [str(e)], which is not empty. *)
Theorem call_gigachat_returns_error_text
    (msgs : list BaseMessage) (w : world) (e : exn) :
  giga env (invoke_calls w) (get_recent_messages msgs 8) = InvokeRaises e ->
  is_Exception e = true ->
  call_gigachat env msgs w
    = (Returns (GIGACHAT_ERROR +:+ exn_str e), tick_invoke w) /\
  truthy (GIGACHAT_ERROR +:+ exn_str e) = true.
Proof.
  intros Hraise Hclass. split.
  - unfold call_gigachat, try_except, bind, giga_invoke,
      get_recent_messages_default.
    rewrite Hraise, Hclass. reflexivity.
  - reflexivity.
Qed.

(** What [call_gigachat] does, by what [giga.invoke] did: a result becomes
    its text, an exception that derives from [Exception] becomes the error
    text, any other exception goes on to the caller. *)
Lemma call_gigachat_cases (msgs : list BaseMessage) (w : world) :
  call_gigachat env msgs w
    = match giga env (invoke_calls w) (get_recent_messages msgs 8) with
      | InvokeReturns res => (Returns (content_of res), tick_invoke w)
      | InvokeRaises e =>
          if is_Exception e
          then (Returns (GIGACHAT_ERROR +:+ exn_str e), tick_invoke w)
          else (Raised e, tick_invoke w)
      end.
Proof.
  unfold call_gigachat, try_except, bind, giga_invoke,
    get_recent_messages_default.
  destruct (giga env (invoke_calls w) (get_recent_messages msgs 8)) as [res | e];
    [ reflexivity | ].
  destruct (is_Exception e); reflexivity.
Qed.

(** X2. [call_gigachat] raises exactly when [giga.invoke] raised an
    exception whose class does not derive from [Exception] (a cancelled
    call, for one): then that very exception reaches the caller, with the
    call counted and nothing else changed. *)
Theorem call_gigachat_raises_what_is_not_caught
    (msgs : list BaseMessage) (w : world) (e : exn) (w' : world) :
  call_gigachat env msgs w = (Raised e, w') <->
  giga env (invoke_calls w) (get_recent_messages msgs 8) = InvokeRaises e /\
  is_Exception e = false /\ w' = tick_invoke w.
Proof.
  rewrite call_gigachat_cases.
  destruct (giga env (invoke_calls w) (get_recent_messages msgs 8)) as [res | e0].
  - split; [ discriminate | intros (Habs & _); discriminate ].
  - destruct (is_Exception e0) eqn:Hclass.
    + split; [ discriminate | ].
      intros (Heq & Hnot & _). injection Heq as <-. congruence.
    + split.
      * intros [= <- <-]. auto.
      * intros (Heq & _ & ->). injection Heq as <-. reflexivity.
Qed.

End Gateway.

(** ** The transcript writer *)

Lemma append_assoc (a b c : string) : (a +:+ b) +:+ c = a +:+ (b +:+ c).
Proof.
  induction a as [ | ch a IH ]; [ reflexivity | ].
  change (String ch ((a +:+ b) +:+ c) = String ch (a +:+ (b +:+ c))).
  rewrite IH. reflexivity.
Qed.

Lemma truthy_dialog_filename (user_id : Z) (status stamp : string) :
  truthy (dialog_filename user_id status stamp) = true.
Proof. reflexivity. Qed.

Lemma no_fault_split (env : environment) (n k1 k2 : nat) :
  no_fault env n (k1 + k2) <-> no_fault env n k1 /\ no_fault env (n + k1) k2.
Proof.
  unfold no_fault. split.
  - intros Hall. split; intros i Hi.
    + apply Hall. lia.
    + rewrite <- Nat.add_assoc. apply Hall. lia.
  - intros [Hlow Hhigh] i Hi. destruct (Nat.lt_ge_cases i k1) as [Hlt | Hge].
    + apply Hlow. exact Hlt.
    + replace (n + i)%nat with (n + k1 + (i - k1))%nat by lia.
      apply Hhigh. lia.
Qed.

Lemma no_fault_one (env : environment) (n : nat) :
  no_fault env n 1 <-> fs_fault env n = false.
Proof.
  unfold no_fault. split.
  - intros Hall. rewrite <- (Nat.add_0_r n). apply Hall. lia.
  - intros Hn i Hi. replace (n + i)%nat with n by lia. exact Hn.
Qed.

(** The file operations of one save: open, header, [len] entries, close. *)
Lemma no_fault_save (env : environment) (n len : nat) :
  no_fault env n (len + 3) <->
  fs_fault env n = false /\ fs_fault env (S n) = false /\
  no_fault env (S (S n)) len /\ fs_fault env (S (S n) + len) = false.
Proof.
  replace (len + 3)%nat with (1 + (1 + (len + 1)))%nat by lia.
  rewrite !no_fault_split, !no_fault_one.
  replace (n + 1)%nat with (S n) by lia.
  replace (S n + 1)%nat with (S (S n)) by lia.
  tauto.
Qed.

Lemma append_empty_r (a : string) : a +:+ EmptyString = a.
Proof.
  induction a as [ | ch a IH ]; [ reflexivity | ].
  change (String ch (a +:+ EmptyString) = String ch a).
  rewrite IH. reflexivity.
Qed.

Section Writer.

Context (env : environment).

(** The loop of lines 84-85: it returns exactly when none of its writes
    fails, and then every entry was appended, first to last. *)
Lemma write_entries (filename : string) (items : list history_item) (w : world) :
  match for_each items
          (fun item => file_write env filename (transcript_entry item)) w with
  | (Returns _, w') =>
      no_fault env (fs_calls w) (length items) /\
      fs_calls w' = (fs_calls w + length items)%nat /\
      utcnow_calls w' = utcnow_calls w /\
      files w' !! filename
        = (fun old => old +:+ transcript_body items) <$> files w !! filename
  | (Raised _, _) => ~ no_fault env (fs_calls w) (length items)
  end.
Proof.
  revert w. induction items as [ | item items IH ]; intros w.
  - cbn. repeat split.
    + intros i Hi. lia.
    + lia.
    + destruct (files w !! filename) as [old | ]; cbn; [ | reflexivity ].
      rewrite append_empty_r. reflexivity.
  - cbn [for_each]. unfold bind at 1. unfold file_write at 1, file_op.
    destruct (fs_fault env (fs_calls w)) eqn:Hfault.
    + intros Hall. apply (no_fault_split env _ 1 (length items)) in Hall.
      destruct Hall as [Hone _]. apply no_fault_one in Hone. congruence.
    + specialize (IH (set_files
        (alter (fun old => old +:+ transcript_entry item) filename) (tick_fs w))).
      destruct (for_each items _ _) as [[[] | e] w'].
      * destruct IH as (Hall & Hcalls & Hclock & Hfiles). cbn in Hall, Hcalls, Hclock, Hfiles.
        repeat split.
        -- apply (no_fault_split env _ 1 (length items)). split.
           ++ apply no_fault_one. exact Hfault.
           ++ replace (fs_calls w + 1)%nat with (S (fs_calls w)) by lia. exact Hall.
        -- cbn [length]. lia.
        -- exact Hclock.
        -- rewrite Hfiles, lookup_alter_eq.
           destruct (files w !! filename) as [old | ]; cbn; [ | reflexivity ].
           unfold transcript_body. cbn [map join fold_right].
           rewrite append_assoc. reflexivity.
      * intros Hall. apply (no_fault_split env _ 1 (length items)) in Hall.
        destruct Hall as [_ Hrest]. apply IH. cbn.
        replace (S (fs_calls w)) with (fs_calls w + 1)%nat by lia. exact Hrest.
Qed.

(** The [with] block of lines 82-85, entered with the clock at its
    [utcnow_calls w]-th reading: it returns exactly when none of its file
    operations fails (open, header, one write per record, close), and then
    the file holds the header and every record. *)
Lemma with_open_outcome (filename : string) (user_id : Z) (status : string)
    (items : list history_item) (w : world) :
  match with_open env filename
          (saved <- utcnow env ;;
           file_write env filename
             (transcript_header user_id (isoformat saved) status) ;;
           for_each items
             (fun item => file_write env filename (transcript_entry item))) w with
  | (Returns _, w') =>
      no_fault env (fs_calls w) (length items + 3) /\
      files w' !! filename
        = Some (transcript user_id (isoformat (clock env (utcnow_calls w)))
                  status items)
  | (Raised _, _) => ~ no_fault env (fs_calls w) (length items + 3)
  end.
Proof.
  pose proof (no_fault_save env (fs_calls w) (length items)) as Hsave.
  unfold with_open. unfold bind at 1. unfold file_open, file_op.
  destruct (fs_fault env (fs_calls w)) eqn:Hopen.
  { rewrite Hsave. intros (Hbad & _). discriminate. }
  unfold bind at 1. unfold utcnow at 1. unfold bind at 1.
  unfold file_write at 1, file_op. cbn [fs_calls tick_utcnow set_files tick_fs].
  destruct (fs_fault env (S (fs_calls w))) eqn:Hheader.
  { unfold file_close, file_op.
    destruct (fs_fault env (fs_calls (tick_fs _))); cbv beta iota;
      rewrite Hsave; intros (_ & Hbad & _); discriminate. }
  match goal with
  | |- context [ for_each items ?body ?w4 ] =>
      pose proof (write_entries filename items w4) as Hloop;
      destruct (for_each items body w4) as [[[] | e] w5]
  end.
  - destruct Hloop as (Hall & Hcalls & Hclock & Hfiles).
    cbn [fs_calls utcnow_calls files tick_utcnow set_files tick_fs]
      in Hall, Hcalls, Hclock, Hfiles.
    unfold file_close, file_op. rewrite Hcalls.
    destruct (fs_fault env (S (S (fs_calls w)) + length items)) eqn:Hclose.
    + cbv beta iota. rewrite Hsave. intros (_ & _ & _ & Hbad). discriminate.
    + cbv beta iota. split; [ apply Hsave; auto | ].
      cbn [files set_files tick_fs]. rewrite Hfiles.
      rewrite lookup_alter_eq, lookup_insert_eq. reflexivity.
  - cbn [fs_calls tick_utcnow set_files tick_fs] in Hloop.
    unfold file_close, file_op.
    destruct (fs_fault env (fs_calls w5)); cbv beta iota; rewrite Hsave;
      intros (_ & _ & Hbad & _); auto.
Qed.

End Writer.

Section Saving.

Context (env : environment).

(** [save_dialog_to_file_and_clear] on a session that has a history: the
    file is written under the name made from the first clock reading, and
    the session is popped only if the [with] block returned. *)
Lemma save_dialog_found (user_id : Z) (status : string) (w : world)
    (sess : session) :
  sessions w !! user_id = Some sess -> history sess <> [] ->
  save_dialog_to_file_and_clear env user_id status w =
    match
      with_open env
        (dialog_filename user_id status
           (strftime_stamp (clock env (utcnow_calls w))))
        (saved <- utcnow env ;;
         file_write env
           (dialog_filename user_id status
              (strftime_stamp (clock env (utcnow_calls w))))
           (transcript_header user_id (isoformat saved) status) ;;
         for_each (history sess)
           (fun item =>
              file_write env
                (dialog_filename user_id status
                   (strftime_stamp (clock env (utcnow_calls w))))
                (transcript_entry item)))
        (tick_utcnow w)
    with
    | (Returns _, w') =>
        (Returns
           (dialog_filename user_id status
              (strftime_stamp (clock env (utcnow_calls w)))),
         set_sessions (delete user_id) w')
    | (Raised e, w') => (Raised e, w')
    end.
Proof.
  intros Hsess Hhist.
  unfold save_dialog_to_file_and_clear. unfold bind at 1. unfold get_sessions.
  rewrite Hsess.
  destruct (history sess) as [ | item items ] eqn:Hitems; [ congruence | ].
  unfold bind at 1. unfold utcnow at 1. unfold bind at 1.
  destruct (with_open env _ _ (tick_utcnow w)) as [[[] | e] w']; reflexivity.
Qed.

(** Lines 77-79, the two ways in which there is nothing to save. *)
Lemma save_dialog_no_session (user_id : Z) (status : string) (w : world) :
  sessions w !! user_id = None ->
  save_dialog_to_file_and_clear env user_id status w = (Returns EmptyString, w).
Proof.
  intros Hnone. unfold save_dialog_to_file_and_clear, bind, get_sessions.
  rewrite Hnone. reflexivity.
Qed.

Lemma save_dialog_empty_history (user_id : Z) (status : string) (w : world)
    (sess : session) :
  sessions w !! user_id = Some sess -> history sess = [] ->
  save_dialog_to_file_and_clear env user_id status w = (Returns EmptyString, w).
Proof.
  intros Hsess Hhist. unfold save_dialog_to_file_and_clear, bind, get_sessions.
  rewrite Hsess, Hhist. reflexivity.
Qed.

(** C5. With no session for the user, or with a session whose history is
    empty, [save_dialog_to_file_and_clear] returns the empty string and
    leaves the world as it was: no file is touched and the session map is
    unchanged. *)
Theorem save_dialog_nothing_to_save (user_id : Z) (status : string) (w : world) :
  (sessions w !! user_id = None \/
   exists sess, sessions w !! user_id = Some sess /\ history sess = []) ->
  save_dialog_to_file_and_clear env user_id status w = (Returns EmptyString, w) /\
  files (exec (save_dialog_to_file_and_clear env user_id status) w) = files w /\
  sessions (exec (save_dialog_to_file_and_clear env user_id status) w) = sessions w.
Proof.
  intros Hcases.
  assert (Hsave : save_dialog_to_file_and_clear env user_id status w
                  = (Returns EmptyString, w)).
  { destruct Hcases as [Hnone | (sess & Hsess & Hhist)].
    - apply save_dialog_no_session. exact Hnone.
    - eapply save_dialog_empty_history; eassumption. }
  unfold exec. rewrite Hsave. repeat split.
Qed.

(** A save that returned a file name had a session with a history to
    write, and none of its file operations failed. *)
Lemma save_dialog_returned (user_id : Z) (status filename : string)
    (w w' : world) :
  save_dialog_to_file_and_clear env user_id status w = (Returns filename, w') ->
  truthy filename = true ->
  exists sess,
    sessions w !! user_id = Some sess /\ history sess <> [] /\
    no_fault env (fs_calls w) (length (history sess) + 3) /\
    filename = dialog_filename user_id status
                 (strftime_stamp (clock env (utcnow_calls w))) /\
    sessions w' !! user_id = None /\
    files w' !! filename
      = Some (transcript user_id
                (isoformat (clock env (S (utcnow_calls w)))) status
                (history sess)).
Proof.
  intros Hsave Hname.
  destruct (sessions w !! user_id) as [sess | ] eqn:Hsess.
  2:{ rewrite (save_dialog_no_session user_id status w Hsess) in Hsave.
      injection Hsave as <- <-. discriminate. }
  assert (Hcases : history sess = [] \/ history sess <> [])
    by (destruct (history sess); [ left | right ]; congruence).
  destruct Hcases as [Hempty | Hnonempty].
  { rewrite (save_dialog_empty_history user_id status w sess Hsess Hempty) in Hsave.
    injection Hsave as <- <-. discriminate. }
  exists sess.
  rewrite (save_dialog_found user_id status w sess Hsess Hnonempty) in Hsave.
  pose proof (with_open_outcome env
    (dialog_filename user_id status (strftime_stamp (clock env (utcnow_calls w))))
    user_id status (history sess) (tick_utcnow w)) as Hout.
  destruct (with_open env _ _ (tick_utcnow w)) as [[[] | e] w'']; [ | discriminate ].
  injection Hsave as <- <-. destruct Hout as [Hall Hfile].
  repeat split; try assumption.
  apply lookup_delete_eq.
Qed.

(** C4. After a save that returned a file name, the user has no session,
    and a second save for the same user, with either status, returns the
    empty string and leaves the world, its files included, untouched. *)
Theorem save_dialog_twice (user_id : Z) (status status' filename : string)
    (w w' : world) :
  save_dialog_to_file_and_clear env user_id status w = (Returns filename, w') ->
  truthy filename = true ->
  sessions w' !! user_id = None /\
  save_dialog_to_file_and_clear env user_id status' w' = (Returns EmptyString, w') /\
  files (exec (save_dialog_to_file_and_clear env user_id status') w') = files w'.
Proof.
  intros Hsave Hname.
  destruct (save_dialog_returned _ _ _ _ _ Hsave Hname)
    as (sess & _ & _ & _ & _ & Hgone & _).
  split; [ exact Hgone | ].
  unfold exec. rewrite (save_dialog_no_session user_id status' w' Hgone).
  split; reflexivity.
Qed.

(** C6 (as amended). For a session with a non-empty history, when no file
    operation fails, the save returns the file name and the file then holds
    the header (user id, save time, status) followed by one entry per
    history record, the system record first, in the order of the history;
    each entry is [ts  ROLE: text] and ends with an empty line. *)
Theorem save_dialog_writes_transcript (user_id : Z) (status : string)
    (w : world) (sess : session) :
  sessions w !! user_id = Some sess -> history sess <> [] ->
  no_fault env (fs_calls w) (length (history sess) + 3) ->
  exists w',
    save_dialog_to_file_and_clear env user_id status w
      = (Returns (dialog_filename user_id status
                    (strftime_stamp (clock env (utcnow_calls w)))), w') /\
    files w' !! dialog_filename user_id status
                  (strftime_stamp (clock env (utcnow_calls w)))
      = Some (transcript_header user_id
                (isoformat (clock env (S (utcnow_calls w)))) status +:+
              join (map transcript_entry (history sess))).
Proof.
  intros Hsess Hhist Hall.
  rewrite (save_dialog_found user_id status w sess Hsess Hhist).
  pose proof (with_open_outcome env
    (dialog_filename user_id status (strftime_stamp (clock env (utcnow_calls w))))
    user_id status (history sess) (tick_utcnow w)) as Hout.
  destruct (with_open env _ _ (tick_utcnow w)) as [[[] | e] w''].
  - destruct Hout as [_ Hfile]. eexists. split; [ reflexivity | exact Hfile ].
  - exfalso. apply Hout. exact Hall.
Qed.

(** C10. If one of the file operations of a save fails (the open, the
    header's write, a record's write or the close), the save raises and the
    session map is what it was: the session is still there. *)
Theorem save_dialog_failure_keeps_session (user_id : Z) (status : string)
    (w : world) (sess : session) (i : nat) :
  sessions w !! user_id = Some sess -> history sess <> [] ->
  (i < length (history sess) + 3)%nat ->
  fs_fault env (fs_calls w + i) = true ->
  exists e w',
    save_dialog_to_file_and_clear env user_id status w = (Raised e, w') /\
    sessions w' = sessions w /\
    sessions w' !! user_id = Some sess.
Proof.
  intros Hsess Hhist Hi Hfault.
  rewrite (save_dialog_found user_id status w sess Hsess Hhist).
  pose proof (with_open_outcome env
    (dialog_filename user_id status (strftime_stamp (clock env (utcnow_calls w))))
    user_id status (history sess) (tick_utcnow w)) as Hout.
  match goal with
  | |- context [ with_open env ?f ?body (tick_utcnow w) ] =>
      pose proof (with_open_keeps_sessions env f body) as Hkeep
  end.
  match type of Hkeep with
  | ?P -> _ => assert (Hbody : P)
  end.
  { apply respects_bind; [ typeclasses eauto | apply utcnow_keeps_sessions | intros saved ].
    apply respects_bind; [ typeclasses eauto | apply file_op_keeps_sessions | intros _ ].
    apply respects_for_each; [ typeclasses eauto | intros it ].
    apply file_op_keeps_sessions. }
  specialize (Hkeep Hbody (tick_utcnow w)). unfold exec in Hkeep.
  destruct (with_open env _ _ (tick_utcnow w)) as [[[] | e] w''].
  - destruct Hout as [Hall _]. specialize (Hall i Hi).
    cbn [fs_calls tick_utcnow] in Hall. congruence.
  - exists e, w''. cbn in Hkeep. rewrite <- Hkeep.
    split; [ reflexivity | ]. split; [ reflexivity | exact Hsess ].
Qed.

End Saving.

(** ** The shape of the file name *)

Lemma digits_2 (n : N) : (n < 100)%N -> digit_string 2 (digits 2 n) = true.
Proof.
  intros Hn.
  assert (Hall : forallb (fun k => digit_string 2 (digits 2 (N.of_nat k)))
                   (seq 0 100) = true) by (vm_compute; reflexivity).
  rewrite forallb_forall in Hall.
  specialize (Hall (N.to_nat n)). rewrite N2Nat.id in Hall.
  apply Hall. apply in_seq. lia.
Qed.

Lemma digits_4 (n : N) : (n < 10000)%N -> digit_string 4 (digits 4 n) = true.
Proof.
  intros Hn.
  assert (Hall : forallb (fun k => digit_string 4 (digits 4 (N.of_nat k)))
                   (seq 0 (N.to_nat 10000)) = true) by (vm_compute; reflexivity).
  rewrite forallb_forall in Hall.
  specialize (Hall (N.to_nat n)). rewrite N2Nat.id in Hall.
  apply Hall. apply in_seq. lia.
Qed.

Lemma is_stamp_fields (y m d h mi s : string) :
  digit_string 4 y = true -> digit_string 2 m = true ->
  digit_string 2 d = true -> digit_string 2 h = true ->
  digit_string 2 mi = true -> digit_string 2 s = true ->
  is_stamp (y +:+ m +:+ d +:+ "_" +:+ h +:+ mi +:+ s) = true.
Proof.
  intros Hy Hm Hd Hh Hmi Hs.
  destruct y as [ | y1 [ | y2 [ | y3 [ | y4 [ | ? ? ] ] ] ] ]; try discriminate Hy.
  destruct m as [ | m1 [ | m2 [ | ? ? ] ] ]; try discriminate Hm.
  destruct d as [ | d1 [ | d2 [ | ? ? ] ] ]; try discriminate Hd.
  destruct h as [ | h1 [ | h2 [ | ? ? ] ] ]; try discriminate Hh.
  destruct mi as [ | i1 [ | i2 [ | ? ? ] ] ]; try discriminate Hmi.
  destruct s as [ | s1 [ | s2 [ | ? ? ] ] ]; try discriminate Hs.
  digit_facts Hy. digit_facts Hm. digit_facts Hd.
  digit_facts Hh. digit_facts Hmi. digit_facts Hs.
  cbv [is_stamp String.append String.length substring all_digits].
  repeat match goal with
         | Hdig : is_digit _ = true |- _ => rewrite Hdig; clear Hdig
         end.
  reflexivity.
Qed.

Lemma strftime_stamp_shape (now : datetime) :
  valid_datetime now = true -> four_digit_year now = true ->
  is_stamp (strftime_stamp now) = true.
Proof.
  intros Hvalid _. revert Hvalid.
  unfold valid_datetime. rewrite !andb_true_iff.
  rewrite !N.leb_le, !N.ltb_lt.
  intros (((((((((Hy1 & Hy2) & Hm1) & Hm2) & Hd1) & Hd2) & Hh) & Hmi) & Hs) & Hus).
  unfold strftime_stamp.
  apply is_stamp_fields; first [ apply digits_4 | apply digits_2 ]; lia.
Qed.

Section FileName.

Context (env : environment).

(** C7 (as amended). The name a save returns is
    [dialog_<user_id>_<status>_<YYYYMMDD_HHMMSS>.txt]: the shape of the
    specification followed by the extension [.txt], where the status is the
    one the caller passed and the stamp is the clock reading taken at the
    start of the save (a datetime of the year 1000 or later), printed down
    to the second. *)
Theorem save_dialog_filename_shape (user_id : Z) (status filename : string)
    (w w' : world) :
  save_dialog_to_file_and_clear env user_id status w = (Returns filename, w') ->
  truthy filename = true ->
  valid_datetime (clock env (utcnow_calls w)) = true ->
  four_digit_year (clock env (utcnow_calls w)) = true ->
  filename
    = filename_as_specified user_id status
        (strftime_stamp (clock env (utcnow_calls w))) +:+ ".txt" /\
  is_stamp (strftime_stamp (clock env (utcnow_calls w))) = true.
Proof.
  intros Hsave Hname Hvalid Hyear.
  destruct (save_dialog_returned env _ _ _ _ _ Hsave Hname)
    as (sess & _ & _ & _ & -> & _).
  split; [ | apply strftime_stamp_shape; assumption ].
  unfold dialog_filename, filename_as_specified.
  rewrite !append_assoc. reflexivity.
Qed.

End FileName.

(** ** Blank messages *)

Lemma length_append (a b : string) :
  String.length (a +:+ b) = (String.length a + String.length b)%nat.
Proof.
  induction a as [ | ch a IH ]; [ reflexivity | ].
  change (S (String.length (a +:+ b)) = S (String.length a + String.length b)).
  rewrite IH. reflexivity.
Qed.

(** A whitespace token in front of a string is the one that gets removed:
    no token is the beginning of another. *)
Lemma strip_one_whitespace (t rest : string) :
  t ∈ WHITESPACE ->
  strip_one WHITESPACE (t +:+ rest) = Some rest /\ (1 <= String.length t)%nat.
Proof.
  intros Hin. unfold WHITESPACE in Hin. cbn [map] in Hin.
  repeat (apply elem_of_cons in Hin; destruct Hin as [-> | Hin];
          [ split; [ reflexivity | cbn; lia ] | ]).
  apply elem_of_nil in Hin. contradiction.
Qed.

Lemma lstrip_loop_whitespace (toks : list string) (fuel : nat) :
  Forall (fun t => t ∈ WHITESPACE) toks ->
  (String.length (join toks) <= fuel)%nat ->
  lstrip_loop WHITESPACE fuel (join toks) = EmptyString.
Proof.
  intros Hall. revert fuel.
  induction Hall as [ | t toks Ht Htoks IH ]; intros fuel Hfuel.
  - destruct fuel; reflexivity.
  - cbn [join fold_right] in *. fold (join toks) in *.
    destruct (strip_one_whitespace t (join toks) Ht) as [Hstrip Hlen].
    rewrite length_append in Hfuel.
    destruct fuel as [ | fuel ]; [ lia | ].
    cbn [lstrip_loop]. rewrite Hstrip. apply IH. lia.
Qed.

(** The rounds of [lstrip_loop] are enough: each removes at least one byte,
    so when they are used up no token is left in front. *)
Lemma strip_prefix_length (p s rest : string) :
  strip_prefix p s = Some rest ->
  String.length s = (String.length p + String.length rest)%nat.
Proof.
  revert s. induction p as [ | a p IH ]; intros s Hstrip.
  - cbn in Hstrip. injection Hstrip as ->. reflexivity.
  - destruct s as [ | b s ]; [ discriminate | ]. cbn in Hstrip.
    destruct (Ascii.eqb a b); [ | discriminate ].
    cbn [String.length]. rewrite (IH s Hstrip). reflexivity.
Qed.

Lemma strip_one_shorter (toks : list string) (s rest : string) :
  Forall (fun t => (1 <= String.length t)%nat) toks ->
  strip_one toks s = Some rest ->
  (String.length rest < String.length s)%nat.
Proof.
  intros Hall. induction Hall as [ | t toks Ht Htoks IH ]; [ discriminate | ].
  cbn [strip_one]. destruct (strip_prefix t s) as [r | ] eqn:Hprefix.
  - intros [= ->]. apply strip_prefix_length in Hprefix. lia.
  - exact IH.
Qed.

Lemma lstrip_loop_done (toks : list string) (fuel : nat) (s : string) :
  Forall (fun t => (1 <= String.length t)%nat) toks ->
  (String.length s <= fuel)%nat ->
  strip_one toks (lstrip_loop toks fuel s) = None.
Proof.
  intros Hall. revert s. induction fuel as [ | fuel IH ]; intros s Hfuel.
  - destruct s; [ | cbn in Hfuel; lia ]. cbn [lstrip_loop].
    destruct (strip_one toks EmptyString) as [rest | ] eqn:Hone; [ | reflexivity ].
    apply (strip_one_shorter toks _ _ Hall) in Hone. cbn in Hone. lia.
  - cbn [lstrip_loop]. destruct (strip_one toks s) as [rest | ] eqn:Hone.
    + apply IH. apply (strip_one_shorter toks _ _ Hall) in Hone. lia.
    + exact Hone.
Qed.

Lemma whitespace_tokens_nonempty :
  Forall (fun t => (1 <= String.length t)%nat) WHITESPACE.
Proof.
  unfold WHITESPACE. cbn [map]. repeat constructor.
Qed.

Lemma lstrip_done (s : string) : strip_one WHITESPACE (lstrip s) = None.
Proof.
  apply lstrip_loop_done; [ apply whitespace_tokens_nonempty | lia ].
Qed.

(** A text of whitespace only is stripped down to nothing. *)
Lemma strip_whitespace_only (s : string) :
  whitespace_only s -> strip s = EmptyString.
Proof.
  intros (toks & Hall & ->). unfold strip, lstrip.
  rewrite lstrip_loop_whitespace by (exact Hall || lia). reflexivity.
Qed.

Section BlankMessages.

Context (env : environment).

(** The guard of lines 103-106. *)
Lemma handle_stripped_to_nothing (user_id : Z) (message_text : option string)
    (w : world) :
  strip (default EmptyString message_text) = EmptyString ->
  handle_user_message env user_id message_text w
    = (Returns tt, push_sent (Reply ASK_FOR_TEXT) w).
Proof.
  intros Hstrip. unfold handle_user_message. rewrite Hstrip. reflexivity.
Qed.

(** C8. A message whose text consists of whitespace only (or is empty) is
    answered with the request for a text, and that is all: the handler
    returns with the session map as it was, so no session is created and
    nothing is appended to the user's messages or history. *)
Theorem blank_message_changes_no_session (user_id : Z) (body : string)
    (w : world) :
  whitespace_only body ->
  handle_user_message env user_id (Some body) w
    = (Returns tt, push_sent (Reply ASK_FOR_TEXT) w) /\
  sessions (exec (handle_user_message env user_id (Some body)) w) = sessions w.
Proof.
  intros Hblank. unfold exec.
  rewrite (handle_stripped_to_nothing user_id (Some body) w)
    by (apply strip_whitespace_only; exact Hblank).
  split; reflexivity.
Qed.

(** C9. A message without a text ([message.text] is [None]) is handled as
    a whitespace-only one: the same reply, the same resulting world, and
    the session map as it was. *)
Theorem textless_message_is_blank (user_id : Z) (w : world) :
  handle_user_message env user_id None w
    = (Returns tt, push_sent (Reply ASK_FOR_TEXT) w) /\
  sessions (exec (handle_user_message env user_id None) w) = sessions w /\
  (forall body, whitespace_only body ->
     handle_user_message env user_id None w
       = handle_user_message env user_id (Some body) w).
Proof.
  split; [ reflexivity | ]. split; [ reflexivity | ].
  intros body Hblank.
  rewrite (handle_stripped_to_nothing user_id (Some body) w)
    by (apply strip_whitespace_only; exact Hblank).
  reflexivity.
Qed.

End BlankMessages.

(** ** The concrete run *)

Lemma demo_world_session : sessions demo_world !! 42 = Some demo_session.
Proof. vm_compute. reflexivity. Qed.

Lemma demo_saved_outcome : demo_saved = (Returns demo_filename, snd demo_saved).
Proof. vm_compute. reflexivity. Qed.

Lemma demo_no_fault (n k : nat) : no_fault demo_env n k.
Proof. intros i Hi. reflexivity. Qed.

Lemma two_spaces_whitespace_only : whitespace_only "  ".
Proof.
  exists [ " "; " " ]. split; [ | reflexivity ].
  assert (Hspace : " " ∈ WHITESPACE).
  { apply (bool_decide_unpack _). vm_compute. exact I. }
  repeat constructor; exact Hspace.
Qed.

(** C2 (witness): user 42 after one exchange, and then a second message. *)
Lemma session_heads_fixed_and_append_only_witness :
  sessions (run demo_env [ Deliver (Message 42 (Some "A")) ] initial_world) !! 42
    = Some demo_first_turn /\
  session_ok demo_first_turn /\
  ((exists sess',
      sessions (perform demo_env (Deliver (Message 42 (Some "C")))
                  (run demo_env [ Deliver (Message 42 (Some "A")) ] initial_world))
        !! 42 = Some sess' /\
      session_grew demo_first_turn sess') \/
   (sessions (perform demo_env (Deliver (Message 42 (Some "C")))
                (run demo_env [ Deliver (Message 42 (Some "A")) ] initial_world))
      !! 42 = None /\
    (Deliver (Message 42 (Some "C")) = Deliver (Callback 42 "solved") \/
     Deliver (Message 42 (Some "C")) = Deliver (Callback 42 "unsolved")))).
Proof.
  assert (Hsess : sessions (run demo_env [ Deliver (Message 42 (Some "A")) ]
                              initial_world) !! 42 = Some demo_first_turn)
    by (vm_compute; reflexivity).
  split; [ exact Hsess | ].
  exact (session_heads_fixed_and_append_only demo_env
           [ Deliver (Message 42 (Some "A")) ] (Deliver (Message 42 (Some "C")))
           42 demo_first_turn Hsess).
Defined.

(** C3 (witness): the model is down. *)
Lemma call_gigachat_returns_error_text_witness :
  giga down_env (invoke_calls initial_world) (get_recent_messages demo_messages 8)
    = InvokeRaises connect_error /\
  is_Exception connect_error = true /\
  call_gigachat down_env demo_messages initial_world
    = (Returns (GIGACHAT_ERROR +:+ "timed out"), tick_invoke initial_world) /\
  truthy (GIGACHAT_ERROR +:+ "timed out") = true.
Proof.
  assert (Hraise : giga down_env (invoke_calls initial_world)
                     (get_recent_messages demo_messages 8)
                   = InvokeRaises connect_error)
    by reflexivity.
  assert (Hclass : is_Exception connect_error = true) by reflexivity.
  split; [ exact Hraise | ]. split; [ exact Hclass | ].
  exact (call_gigachat_returns_error_text down_env demo_messages initial_world
           connect_error Hraise Hclass).
Defined.

(** C3 (counterexample). The model call is cancelled: [giga.invoke] ends
    with [asyncio.CancelledError], which does not derive from [Exception],
    and [call_gigachat] returns no string: the exception reaches the
    caller. *)
Lemma call_gigachat_cancelled_counterexample :
  giga cancelled_env (invoke_calls initial_world)
    (get_recent_messages demo_messages 8)
    = InvokeRaises cancelled_error /\
  exn_class cancelled_error = "CancelledError" /\
  call_gigachat cancelled_env demo_messages initial_world
    = (Raised cancelled_error, tick_invoke initial_world).
Proof.
  repeat split.
Qed.

(** X2 (witness): the cancelled call. *)
Lemma call_gigachat_raises_what_is_not_caught_witness :
  (call_gigachat cancelled_env demo_messages initial_world
     = (Raised cancelled_error, tick_invoke initial_world) <->
   giga cancelled_env (invoke_calls initial_world)
     (get_recent_messages demo_messages 8)
     = InvokeRaises cancelled_error /\
   is_Exception cancelled_error = false /\
   tick_invoke initial_world = tick_invoke initial_world) /\
  call_gigachat cancelled_env demo_messages initial_world
    = (Raised cancelled_error, tick_invoke initial_world).
Proof.
  split.
  - exact (call_gigachat_raises_what_is_not_caught cancelled_env demo_messages
             initial_world cancelled_error (tick_invoke initial_world)).
  - reflexivity.
Defined.

(** C4 (witness): the save of the concrete run, and a second one. *)
Lemma save_dialog_twice_witness :
  demo_saved = (Returns demo_filename, snd demo_saved) /\
  truthy demo_filename = true /\
  sessions (snd demo_saved) !! 42 = None /\
  save_dialog_to_file_and_clear demo_env 42 "solved" (snd demo_saved)
    = (Returns EmptyString, snd demo_saved) /\
  files (exec (save_dialog_to_file_and_clear demo_env 42 "solved") (snd demo_saved))
    = files (snd demo_saved).
Proof.
  assert (Hname : truthy demo_filename = true) by reflexivity.
  split; [ exact demo_saved_outcome | ]. split; [ exact Hname | ].
  exact (save_dialog_twice demo_env 42 "solved" "solved" demo_filename
           demo_world (snd demo_saved) demo_saved_outcome Hname).
Defined.

(** C5 (witness): a resolution button pressed before any message. *)
Lemma save_dialog_nothing_to_save_witness :
  sessions initial_world !! 7 = None /\
  save_dialog_to_file_and_clear demo_env 7 "unsolved" initial_world
    = (Returns EmptyString, initial_world) /\
  files (exec (save_dialog_to_file_and_clear demo_env 7 "unsolved") initial_world)
    = files initial_world /\
  sessions (exec (save_dialog_to_file_and_clear demo_env 7 "unsolved") initial_world)
    = sessions initial_world.
Proof.
  assert (Hnone : sessions initial_world !! 7 = None) by reflexivity.
  split; [ exact Hnone | ].
  exact (save_dialog_nothing_to_save demo_env 7 "unsolved" initial_world
           (or_introl Hnone)).
Defined.

(** C6 (witness): the transcript of the concrete run. *)
Lemma save_dialog_writes_transcript_witness :
  sessions demo_world !! 42 = Some demo_session /\
  exists w',
    save_dialog_to_file_and_clear demo_env 42 "solved" demo_world
      = (Returns (dialog_filename 42 "solved"
                    (strftime_stamp (clock demo_env (utcnow_calls demo_world)))),
         w') /\
    files w' !! dialog_filename 42 "solved"
                  (strftime_stamp (clock demo_env (utcnow_calls demo_world)))
      = Some (transcript_header 42
                (isoformat (clock demo_env (S (utcnow_calls demo_world))))
                "solved" +:+
              join (map transcript_entry (history demo_session))).
Proof.
  assert (Hhist : history demo_session <> []) by discriminate.
  split; [ exact demo_world_session | ].
  exact (save_dialog_writes_transcript demo_env 42 "solved" demo_world
           demo_session demo_world_session Hhist (demo_no_fault _ _)).
Defined.

(** C6 (counterexample). The history of the concrete run is
    [system, user A, bot B, user C, bot D]. The file written for it holds,
    after the header, the entry of the system record and then the four
    turns: five entries, not exactly the four. *)
Lemma demo_transcript_counterexample :
  history <$> sessions demo_world !! 42 = Some demo_history /\
  map (fun item => (role item, text item)) demo_history
    = [ ("system", SYSTEM_PROMPT); ("user", "A"); ("bot", "B");
        ("user", "C"); ("bot", "D") ] /\
  fst demo_saved = Returns demo_filename /\
  files (snd demo_saved) !! demo_filename
    = Some (transcript_header 42 "2024-01-02T03:04:06" "solved" +:+
            transcript_entry {| role := "system"; text := SYSTEM_PROMPT;
                                ts := "2024-01-02T03:04:00" |} +:+
            join (map transcript_entry demo_turns)) /\
  files (snd demo_saved) !! demo_filename
    <> Some (transcript_header 42 "2024-01-02T03:04:06" "solved" +:+
             join (map transcript_entry demo_turns)).
Proof.
  split; [ vm_compute; reflexivity | ].
  split; [ reflexivity | ].
  split; [ vm_compute; reflexivity | ].
  split; [ vm_compute; reflexivity | ].
  vm_compute. discriminate.
Qed.

Lemma substring_all (s : string) : substring 0 (String.length s) s = s.
Proof.
  induction s as [ | ch s IH ]; [ reflexivity | ].
  cbn [String.length substring]. rewrite IH. reflexivity.
Qed.

Lemma substring_append_tail (p s : string) :
  substring (String.length p) (String.length s) (p +:+ s) = s.
Proof.
  induction p as [ | ch p IH ]; [ apply substring_all | exact IH ].
Qed.

(** A name of the specified shape ends with its stamp. *)
Lemma specified_name_ends_with_stamp (user_id : Z) (status stamp : string) :
  is_stamp stamp = true ->
  is_stamp (substring
              (String.length (filename_as_specified user_id status stamp) - 15) 15
              (filename_as_specified user_id status stamp)) = true.
Proof.
  intros Hstamp.
  assert (Hlen : String.length stamp = 15%nat).
  { unfold is_stamp in Hstamp. rewrite !andb_true_iff in Hstamp.
    destruct Hstamp as [[[Hlen _] _] _]. apply Nat.eqb_eq. exact Hlen. }
  unfold filename_as_specified.
  rewrite <- !append_assoc.
  set (front := ((("dialog_" +:+ str_int user_id) +:+ "_") +:+ status) +:+ "_").
  rewrite length_append, Hlen.
  replace (String.length front + 15 - 15)%nat with (String.length front) by lia.
  rewrite <- Hlen at 1. rewrite substring_append_tail. exact Hstamp.
Qed.

(** C7 (witness): the file name of the concrete run. *)
Lemma save_dialog_filename_shape_witness :
  demo_saved = (Returns demo_filename, snd demo_saved) /\
  valid_datetime (clock demo_env (utcnow_calls demo_world)) = true /\
  four_digit_year (clock demo_env (utcnow_calls demo_world)) = true /\
  demo_filename
    = filename_as_specified 42 "solved"
        (strftime_stamp (clock demo_env (utcnow_calls demo_world))) +:+ ".txt" /\
  is_stamp (strftime_stamp (clock demo_env (utcnow_calls demo_world))) = true.
Proof.
  assert (Hname : truthy demo_filename = true) by reflexivity.
  assert (Hvalid : valid_datetime (clock demo_env (utcnow_calls demo_world)) = true)
    by (vm_compute; reflexivity).
  assert (Hyear : four_digit_year (clock demo_env (utcnow_calls demo_world)) = true)
    by (vm_compute; reflexivity).
  split; [ exact demo_saved_outcome | ]. split; [ exact Hvalid | ].
  split; [ exact Hyear | ].
  exact (save_dialog_filename_shape demo_env 42 "solved" demo_filename
           demo_world (snd demo_saved) demo_saved_outcome Hname Hvalid Hyear).
Defined.

(** C7 (counterexample). The name returned in the concrete run ends with
    [.txt], not with a stamp, so it is no name of the shape
    [dialog_<userId>_<status>_<YYYYMMDD_HHMMSS>], whatever the three parts. *)
Lemma demo_filename_counterexample :
  fst demo_saved = Returns demo_filename /\
  demo_filename = "dialog_42_solved_20240102_030405" +:+ ".txt" /\
  filename_as_specified 42 "solved" "20240102_030405"
    = "dialog_42_solved_20240102_030405" /\
  (forall user_id status stamp,
     is_stamp stamp = true ->
     filename_as_specified user_id status stamp <> demo_filename).
Proof.
  split; [ vm_compute; reflexivity | ].
  split; [ reflexivity | ]. split; [ reflexivity | ].
  intros user_id status stamp Hstamp Heq.
  pose proof (specified_name_ends_with_stamp user_id status stamp Hstamp) as Hend.
  rewrite Heq in Hend. vm_compute in Hend. discriminate.
Qed.

(** C8 (witness): the message of two spaces. *)
Lemma blank_message_changes_no_session_witness :
  whitespace_only "  " /\
  handle_user_message demo_env 42 (Some "  ") initial_world
    = (Returns tt, push_sent (Reply ASK_FOR_TEXT) initial_world) /\
  sessions (exec (handle_user_message demo_env 42 (Some "  ")) initial_world)
    = sessions initial_world.
Proof.
  split; [ exact two_spaces_whitespace_only | ].
  exact (blank_message_changes_no_session demo_env 42 "  " initial_world
           two_spaces_whitespace_only).
Defined.

(** C9 (witness): a sticker, against the message of two spaces. *)
Lemma textless_message_is_blank_witness :
  whitespace_only "  " /\
  handle_user_message demo_env 42 None demo_world
    = (Returns tt, push_sent (Reply ASK_FOR_TEXT) demo_world) /\
  sessions (exec (handle_user_message demo_env 42 None) demo_world)
    = sessions demo_world /\
  handle_user_message demo_env 42 None demo_world
    = handle_user_message demo_env 42 (Some "  ") demo_world.
Proof.
  destruct (textless_message_is_blank demo_env 42 demo_world)
    as (Hreply & Hkeep & Hsame).
  split; [ exact two_spaces_whitespace_only | ].
  split; [ exact Hreply | ]. split; [ exact Hkeep | ].
  exact (Hsame "  " two_spaces_whitespace_only).
Defined.

(** C10 (witness): the disk fails at the write of the first record. *)
Lemma save_dialog_failure_keeps_session_witness :
  sessions demo_world !! 42 = Some demo_session /\
  fs_fault full_disk_env (fs_calls demo_world + 2) = true /\
  exists e w',
    save_dialog_to_file_and_clear full_disk_env 42 "solved" demo_world
      = (Raised e, w') /\
    sessions w' = sessions demo_world /\
    sessions w' !! 42 = Some demo_session.
Proof.
  assert (Hhist : history demo_session <> []) by discriminate.
  assert (Hop : (2 < length (history demo_session) + 3)%nat) by (cbn; lia).
  assert (Hfault : fs_fault full_disk_env (fs_calls demo_world + 2) = true)
    by (vm_compute; reflexivity).
  split; [ exact demo_world_session | ]. split; [ exact Hfault | ].
  exact (save_dialog_failure_keeps_session full_disk_env 42 "solved" demo_world
           demo_session 2 demo_world_session Hhist Hop Hfault).
Defined.

(** * Further properties *)

(** ** More on the window *)

Lemma slice_from_is_drop {A : Type} (start : Z) (l : list A) :
  exists n, slice_from start l = drop n l.
Proof. unfold slice_from. eexists. reflexivity. Qed.

Lemma get_recent_messages_cons (system : BaseMessage) (others : list BaseMessage)
    (max_pairs : Z) :
  1 <= max_pairs ->
  get_recent_messages (system :: others) max_pairs
    = system :: drop (length others - Z.to_nat (2 * max_pairs)) others.
Proof.
  intros Hpairs. unfold get_recent_messages.
  rewrite slice_from_negative by lia.
  replace (max_pairs * 2) with (2 * max_pairs) by lia. reflexivity.
Qed.

Lemma get_recent_messages_cons_zero (system : BaseMessage)
    (others : list BaseMessage) :
  get_recent_messages (system :: others) 0 = system :: others.
Proof.
  unfold get_recent_messages, slice_from.
  change (- (0 * 2)) with 0. change (0 <? 0) with false. cbv iota.
  rewrite Z.min_l by lia. reflexivity.
Qed.

(** X3. Windowing a window changes nothing, for every [max_pairs >= 0]; a list
    of at most [1 + 2*max_pairs] messages is its own window. *)
Theorem get_recent_messages_idempotent (msgs : list BaseMessage) (max_pairs : Z) :
  0 <= max_pairs ->
  get_recent_messages (get_recent_messages msgs max_pairs) max_pairs
    = get_recent_messages msgs max_pairs /\
  (msgs <> [] -> Z.of_nat (length msgs) <= 1 + 2 * max_pairs ->
   get_recent_messages msgs max_pairs = msgs).
Proof.
  intros Hpairs.
  destruct (Z.eq_dec max_pairs 0) as [-> | Hne].
  { destruct msgs as [ | system others ].
    - split; [ reflexivity | congruence ].
    - rewrite !get_recent_messages_cons_zero. split; [ reflexivity | ].
      intros _ _. reflexivity. }
  destruct msgs as [ | system others ].
  - split; [ | congruence ].
    change (get_recent_messages [] max_pairs) with [SystemMessage SYSTEM_PROMPT].
    rewrite get_recent_messages_cons by lia. reflexivity.
  - rewrite !get_recent_messages_cons by lia. split.
    + f_equal. rewrite length_drop, drop_drop. f_equal. lia.
    + intros _ Hshort. cbn [length] in Hshort. f_equal.
      replace (length others - Z.to_nat (2 * max_pairs))%nat with 0%nat by lia.
      reflexivity.
Qed.

(** X3 (witness). The five messages of the example, windowed twice. *)
Lemma get_recent_messages_idempotent_witness :
  0 <= 1 /\
  get_recent_messages (get_recent_messages demo_messages 1) 1
    = get_recent_messages demo_messages 1 /\
  get_recent_messages (get_recent_messages demo_messages 1) 1
    = [ SystemMessage "s"; HumanMessage "c"; SystemMessage "d" ].
Proof.
  assert (Hpairs : 0 <= 1) by lia.
  split; [ exact Hpairs | ].
  split; [ exact (proj1 (get_recent_messages_idempotent demo_messages 1 Hpairs)) | ].
  reflexivity.
Defined.

Lemma get_recent_messages_suffix (msgs : list BaseMessage) (max_pairs : Z) :
  tail (get_recent_messages msgs max_pairs) `suffix_of` tail msgs.
Proof.
  destruct msgs as [ | system others ]; [ reflexivity | ].
  unfold get_recent_messages. cbn [app tail].
  destruct (slice_from_is_drop (- (max_pairs * 2)) others) as [n ->].
  apply suffix_drop.
Qed.

Lemma get_recent_messages_last (msgs : list BaseMessage) (max_pairs : Z) :
  0 <= max_pairs -> msgs <> [] ->
  last (get_recent_messages msgs max_pairs) = last msgs.
Proof.
  intros Hpairs Hmsgs.
  destruct msgs as [ | system others ]; [ congruence | ].
  destruct (Z.eq_dec max_pairs 0) as [-> | Hne].
  { rewrite get_recent_messages_cons_zero. reflexivity. }
  rewrite get_recent_messages_cons by lia.
  destruct others as [ | m others ]; [ reflexivity | ].
  remember (m :: others) as l eqn:Hl.
  remember (length l - Z.to_nat (2 * max_pairs))%nat as n eqn:Hn.
  assert (Hlen : (n < length l)%nat) by (subst l n; cbn [length]; lia).
  destruct (drop n l) as [ | d ds ] eqn:Hdrop.
  { apply (f_equal length) in Hdrop. rewrite length_drop in Hdrop.
    cbn in Hdrop. lia. }
  rewrite last_cons_cons.
  transitivity (last l); [ | subst l; rewrite last_cons_cons; reflexivity ].
  rewrite <- (take_drop n l), Hdrop, last_app_cons. reflexivity.
Qed.

Lemma get_recent_messages_length_le (msgs : list BaseMessage) (max_pairs : Z) :
  1 <= max_pairs ->
  Z.of_nat (length (get_recent_messages msgs max_pairs)) <= 1 + 2 * max_pairs.
Proof.
  intros Hpairs. destruct msgs as [ | system others ].
  - cbn. lia.
  - rewrite get_recent_messages_cons by lia. cbn [length].
    rewrite length_drop. lia.
Qed.

(** X4. Whatever [max_pairs] is, what follows the first message in the window
    is an end piece of what followed it in the list (nothing is reordered or
    made up); and for [max_pairs >= 0] the newest message is in the window. *)
Theorem get_recent_messages_keeps_newest (msgs : list BaseMessage) (max_pairs : Z) :
  tail (get_recent_messages msgs max_pairs) `suffix_of` tail msgs /\
  (0 <= max_pairs -> msgs <> [] ->
   last (get_recent_messages msgs max_pairs) = last msgs).
Proof.
  split; [ apply get_recent_messages_suffix | apply get_recent_messages_last ].
Qed.

(** X4 (witness). *)
Lemma get_recent_messages_keeps_newest_witness :
  tail (get_recent_messages demo_messages 1) `suffix_of` tail demo_messages /\
  last (get_recent_messages demo_messages 1) = Some (SystemMessage "d").
Proof.
  assert (Hpairs : 0 <= 1) by lia.
  assert (Hmsgs : demo_messages <> []) by discriminate.
  destruct (get_recent_messages_keeps_newest demo_messages 1) as [Hsuffix Hlast].
  split; [ exact Hsuffix | exact (Hlast Hpairs Hmsgs) ].
Defined.

(** X5. A negative [max_pairs] does not raise and does not bound anything: the
    slice starts at [2*|max_pairs|], so the oldest messages after the first
    are dropped and all later ones are kept. *)
Theorem get_recent_messages_negative_pairs (system : BaseMessage)
    (others : list BaseMessage) (max_pairs : Z) :
  max_pairs < 0 ->
  get_recent_messages (system :: others) max_pairs
    = system :: drop (Z.to_nat (- (2 * max_pairs))) others.
Proof.
  intros Hneg. unfold get_recent_messages, slice_from. cbn [app]. f_equal.
  destruct (Z.ltb_spec (- (max_pairs * 2)) 0) as [Hlt | Hge]; [ lia | ].
  destruct (Z.le_gt_cases (- (max_pairs * 2)) (Z.of_nat (length others)))
    as [Hin | Hout].
  - rewrite Z.min_l by lia. f_equal. lia.
  - rewrite Z.min_r by lia. rewrite Nat2Z.id.
    rewrite drop_all. symmetry. apply drop_ge. lia.
Qed.

(** X5 (witness). *)
Lemma get_recent_messages_negative_pairs_witness :
  -1 < 0 /\
  get_recent_messages demo_messages (-1)
    = [ SystemMessage "s"; HumanMessage "c"; SystemMessage "d" ].
Proof.
  assert (Hneg : -1 < 0) by lia.
  split; [ exact Hneg | ].
  exact (get_recent_messages_negative_pairs (SystemMessage "s")
           [ HumanMessage "a"; SystemMessage "b"; HumanMessage "c";
             SystemMessage "d" ] (-1) Hneg).
Defined.

(** ** What the handlers do to the world *)

Section Keeps.

Context {B : Type} (proj : world -> B).

Lemma keeps_ret {A : Type} (a : A) : keeps proj (ret a).
Proof. intros w. reflexivity. Qed.

Lemma keeps_bind {A C : Type} (m : M A) (k : A -> M C) :
  keeps proj m -> (forall a, keeps proj (k a)) -> keeps proj (bind m k).
Proof.
  intros Hm Hk w. specialize (Hm w). unfold exec, bind in *.
  destruct (m w) as [[a | e] w']; cbn in *; [ | exact Hm ].
  rewrite <- Hm. apply Hk.
Qed.

Lemma keeps_for_each {A : Type} (xs : list A) (body : A -> M unit) :
  (forall x, keeps proj (body x)) -> keeps proj (for_each xs body).
Proof.
  intros Hbody. induction xs as [ | x xs IH ]; cbn [for_each].
  - apply keeps_ret.
  - apply keeps_bind; [ apply Hbody | intros _; exact IH ].
Qed.

End Keeps.

Section Effects.

Context (env : environment).

Lemma init_session_found (user_id : Z) (w : world) (sess : session) :
  sessions w !! user_id = Some sess ->
  init_session env user_id w = (Returns tt, w).
Proof.
  intros Hsess. unfold init_session, bind, get_sessions. rewrite Hsess.
  reflexivity.
Qed.

Lemma init_session_fresh (user_id : Z) (w : world) :
  sessions w !! user_id = None ->
  init_session env user_id w
    = (Returns tt,
       advance (<[user_id := fresh_session (isoformat (clock env (utcnow_calls w)))]>
                  (sessions w)) 1 w).
Proof.
  intros Hnone. unfold init_session, bind, get_sessions. rewrite Hnone.
  reflexivity.
Qed.

(** [init_session] in one equation: afterwards the user has the session
    [resumed], at the cost of [init_ticks] clock readings. *)
Lemma init_session_effect (user_id : Z) (w : world) :
  init_session env user_id w
    = (Returns tt,
       advance (<[user_id := resumed env user_id w]> (sessions w))
         (init_ticks user_id w) w).
Proof.
  unfold resumed, init_ticks.
  destruct (sessions w !! user_id) as [sess | ] eqn:Hsess.
  - rewrite (init_session_found user_id w sess Hsess).
    rewrite insert_id by exact Hsess. destruct w; reflexivity.
  - apply init_session_fresh. exact Hsess.
Qed.

Lemma append_message_found (user_id : Z) (m : BaseMessage) (w : world)
    (sess : session) :
  sessions w !! user_id = Some sess ->
  append_message user_id m w
    = (Returns tt,
       advance (<[user_id := {| messages := messages sess ++ [m];
                                history := history sess |}]> (sessions w)) 0 w).
Proof.
  intros Hsess. unfold append_message, session_of, bind, get_sessions.
  rewrite Hsess. destruct w; reflexivity.
Qed.

Lemma append_history_found (user_id : Z) (r t : string) (w : world)
    (sess : session) :
  sessions w !! user_id = Some sess ->
  append_history env user_id r t w
    = (Returns tt,
       advance (<[user_id :=
                    {| messages := messages sess;
                       history := history sess ++
                         [ {| role := r; text := t;
                              ts := isoformat (clock env (utcnow_calls w)) |} ] |}]>
                  (sessions w)) 1 w).
Proof.
  intros Hsess. unfold append_history, session_of, bind, get_sessions.
  rewrite Hsess. reflexivity.
Qed.

Lemma advance_advance (ss ss' : gmap Z session) (n n' : nat) (w : world) :
  advance ss' n' (advance ss n w) = advance ss' (n' + n) w.
Proof. unfold advance. cbn. f_equal. lia. Qed.

Lemma store_user_turn_effect (user_id : Z) (body : string) (w : world) :
  store_user_turn env user_id body w
    = (Returns tt,
       advance
         (<[user_id :=
              with_user_turn (resumed env user_id w) body
                (isoformat (clock env (init_ticks user_id w + utcnow_calls w)))]>
            (sessions w))
         (S (init_ticks user_id w)) w).
Proof.
  unfold store_user_turn. unfold bind at 1. rewrite init_session_effect.
  unfold bind at 1.
  rewrite (append_message_found user_id _ _ (resumed env user_id w))
    by (cbn; apply lookup_insert_eq).
  rewrite (append_history_found user_id _ _ _
             {| messages := messages (resumed env user_id w) ++ [HumanMessage body];
                history := history (resumed env user_id w) |})
    by (cbn; apply lookup_insert_eq).
  f_equal. rewrite !advance_advance. cbn [sessions advance utcnow_calls].
  rewrite !insert_insert_eq. unfold with_user_turn. cbn.
  f_equal.
Qed.

Lemma store_bot_turn_found (user_id : Z) (bot_reply : string) (w : world)
    (sess : session) :
  sessions w !! user_id = Some sess ->
  store_bot_turn env user_id bot_reply w
    = (Returns tt,
       advance
         (<[user_id :=
              with_bot_turn sess bot_reply (isoformat (clock env (utcnow_calls w)))]>
            (sessions w))
         1 w).
Proof.
  intros Hsess. unfold store_bot_turn. unfold bind at 1.
  rewrite (append_message_found user_id _ _ sess Hsess).
  rewrite (append_history_found user_id _ _ _
             {| messages := messages sess ++ [SystemMessage bot_reply];
                history := history sess |})
    by (cbn; apply lookup_insert_eq).
  f_equal. rewrite !advance_advance. cbn [sessions advance utcnow_calls].
  rewrite !insert_insert_eq. reflexivity.
Qed.

Lemma store_bot_turn_missing (user_id : Z) (bot_reply : string) (w : world) :
  sessions w !! user_id = None ->
  store_bot_turn env user_id bot_reply w = (Raised (KeyError user_id), w).
Proof.
  intros Hnone. unfold store_bot_turn, append_message, session_of, bind, get_sessions.
  rewrite Hnone. reflexivity.
Qed.

Lemma call_gigachat_reply (msgs : list BaseMessage) (w : world) :
  uncaught (giga env (invoke_calls w) (get_recent_messages msgs 8)) = false ->
  call_gigachat env msgs w
    = (Returns (reply_text (giga env (invoke_calls w) (get_recent_messages msgs 8))),
       tick_invoke w).
Proof.
  intros Hcaught. rewrite call_gigachat_cases.
  destruct (giga env (invoke_calls w) (get_recent_messages msgs 8)) as [res | e];
    [ reflexivity | ].
  cbn in Hcaught. apply negb_false_iff in Hcaught. rewrite Hcaught. reflexivity.
Qed.

Lemma call_gigachat_goes_on (msgs : list BaseMessage) (w : world) :
  uncaught (giga env (invoke_calls w) (get_recent_messages msgs 8)) = true ->
  exists e, call_gigachat env msgs w = (Raised e, tick_invoke w).
Proof.
  intros Hgoes. rewrite call_gigachat_cases.
  destruct (giga env (invoke_calls w) (get_recent_messages msgs 8)) as [res | e];
    [ discriminate | ].
  cbn in Hgoes. apply negb_true_iff in Hgoes. rewrite Hgoes.
  exists e. reflexivity.
Qed.

End Effects.

Section Turns.

Context (env : environment).

(** A run of [handle_user_message] on a text that is not blank, when the
    model call returns or raises what [call_gigachat] catches, in one
    equation. *)
Lemma handle_user_message_effect (user_id : Z) (body : string) (w : world) :
  truthy (strip body) = true ->
  uncaught
    (giga env (invoke_calls w)
       (get_recent_messages
          (messages (resumed env user_id w) ++ [HumanMessage body]) 8)) = false ->
  exists w' stamp stamp',
    handle_user_message env user_id (Some body) w = (Returns tt, w') /\
    sessions w'
      = <[user_id :=
            with_bot_turn (with_user_turn (resumed env user_id w) body stamp)
              (reply_text
                 (giga env (invoke_calls w)
                    (get_recent_messages
                       (messages (resumed env user_id w) ++ [HumanMessage body]) 8)))
              stamp']> (sessions w) /\
    sent w'
      = (sent w ++
         [ ChatAction "typing";
           Answer (reply_text
                     (giga env (invoke_calls w)
                        (get_recent_messages
                           (messages (resumed env user_id w) ++ [HumanMessage body]) 8)))
                  (Some action_keyboard) None ])%list /\
    files w' = files w /\ fs_calls w' = fs_calls w /\
    invoke_calls w' = S (invoke_calls w).
Proof.
  intros Hstrip Hcaught. unfold handle_user_message. cbn [default from_option id].
  rewrite Hstrip. cbn [negb].
  unfold bind at 1. rewrite store_user_turn_effect.
  unfold bind at 1. unfold send at 1, modify at 1.
  unfold bind at 1. unfold session_of at 1, bind at 1, get_sessions at 1.
  cbn [sessions advance push_sent]. rewrite lookup_insert_eq.
  unfold ret at 1.
  unfold bind at 1. rewrite call_gigachat_reply by exact Hcaught.
  unfold bind at 1.
  rewrite (store_bot_turn_found env user_id _ _
             (with_user_turn (resumed env user_id w) body
                (isoformat (clock env (init_ticks user_id w + utcnow_calls w)))))
    by (cbn; apply lookup_insert_eq).
  unfold send, modify.
  eexists. eexists. eexists. split; [ reflexivity | ].
  cbn. rewrite insert_insert_eq, <- app_assoc.
  repeat split.
Qed.

(** The same run when the model call raises what [call_gigachat] does not
    catch: the handler ends there, with the user's turn stored and no reply
    stored or sent. *)
Lemma handle_user_message_cut (user_id : Z) (body : string) (w : world) :
  truthy (strip body) = true ->
  uncaught
    (giga env (invoke_calls w)
       (get_recent_messages
          (messages (resumed env user_id w) ++ [HumanMessage body]) 8)) = true ->
  exists e w' stamp,
    handle_user_message env user_id (Some body) w = (Raised e, w') /\
    sessions w'
      = <[user_id := with_user_turn (resumed env user_id w) body stamp]>
          (sessions w) /\
    sent w' = (sent w ++ [ ChatAction "typing" ])%list.
Proof.
  intros Hstrip Hgoes. unfold handle_user_message. cbn [default from_option id].
  rewrite Hstrip. cbn [negb].
  unfold bind at 1. rewrite store_user_turn_effect.
  unfold bind at 1. unfold send at 1, modify at 1.
  unfold bind at 1. unfold session_of at 1, bind at 1, get_sessions at 1.
  cbn [sessions advance push_sent]. rewrite lookup_insert_eq.
  unfold ret at 1.
  unfold bind at 1.
  match goal with
  | |- context [ call_gigachat env ?msgs ?w1 ] =>
      destruct (call_gigachat_goes_on env msgs w1 Hgoes) as [e He]; rewrite He
  end.
  exists e. eexists. eexists. split; [ reflexivity | ].
  cbn. split; reflexivity.
Qed.

End Turns.

Section Conversation.

Context (env : environment).

(** X6. [init_session] is idempotent: once it has run, running it again
    returns without changing anything, the clock count included. *)
Theorem init_session_idempotent (user_id : Z) (w : world) :
  init_session env user_id (exec (init_session env user_id) w)
    = (Returns tt, exec (init_session env user_id) w).
Proof.
  assert (Hthere : sessions (exec (init_session env user_id) w) !! user_id
                   = Some (resumed env user_id w)).
  { unfold exec. rewrite init_session_effect. cbn. apply lookup_insert_eq. }
  eapply init_session_found. exact Hthere.
Qed.

(** X7. For a user without a session, [init_session] reads the clock once and
    stores the session made of the system instruction and its record; the
    sessions of all other users, the files and the outbox stay as they are. *)
Theorem init_session_creates (user_id : Z) (w : world) :
  sessions w !! user_id = None ->
  exists w',
    init_session env user_id w = (Returns tt, w') /\
    sessions w' !! user_id
      = Some (fresh_session (isoformat (clock env (utcnow_calls w)))) /\
    (forall other, other <> user_id -> sessions w' !! other = sessions w !! other) /\
    utcnow_calls w' = S (utcnow_calls w) /\
    files w' = files w /\ sent w' = sent w.
Proof.
  intros Hnone. eexists. split; [ apply init_session_fresh; exact Hnone | ].
  cbn. split; [ apply lookup_insert_eq | ].
  split; [ | repeat split ].
  intros other Hother. apply lookup_insert_ne. congruence.
Qed.

(** X8. [/start] in the middle of a conversation does not reset it: the
    greeting is sent and nothing else in the world changes. *)
Theorem cmd_start_keeps_conversation (user_id : Z) (w : world) (sess : session) :
  sessions w !! user_id = Some sess ->
  cmd_start env user_id w = (Returns tt, push_sent (Answer GREETING None None) w) /\
  sessions (exec (cmd_start env user_id) w) !! user_id = Some sess.
Proof.
  intros Hsess.
  assert (Hstart : cmd_start env user_id w
                   = (Returns tt, push_sent (Answer GREETING None None) w)).
  { unfold cmd_start. unfold bind.
    rewrite (init_session_found env user_id w sess Hsess). reflexivity. }
  unfold exec. rewrite Hstart. split; [ reflexivity | exact Hsess ].
Qed.

(** X9. The two stretches of a turn that write the session raise nothing
    and store exactly one exchange. Lines 108-115 return for a known and for
    a new user and leave the session the user had (or a fresh one) with the
    message appended, in [messages] and in [history]; and lines 122-125, run
    in any world in which that session is still in place, return and leave it
    with the reply appended as well. *)
Theorem turn_stores_one_exchange (user_id : Z) (body bot_reply : string)
    (w : world) :
  exists w1 stamp,
    store_user_turn env user_id body w = (Returns tt, w1) /\
    sessions w1 !! user_id
      = Some (with_user_turn (resumed env user_id w) body stamp) /\
    forall w2,
      sessions w2 !! user_id = sessions w1 !! user_id ->
      exists w3 stamp',
        store_bot_turn env user_id bot_reply w2 = (Returns tt, w3) /\
        sessions w3 !! user_id
          = Some (with_bot_turn
                    (with_user_turn (resumed env user_id w) body stamp)
                    bot_reply stamp').
Proof.
  eexists. eexists. split; [ apply store_user_turn_effect | ].
  cbn [sessions advance]. rewrite lookup_insert_eq.
  split; [ reflexivity | ].
  intros w2 Hsame.
  eexists. eexists.
  split; [ apply store_bot_turn_found; exact Hsame | ].
  cbn [sessions advance]. apply lookup_insert_eq.
Qed.

(** X10. What the model is asked and what the user is told, on a run of the
    handler in which the model call returns or raises what [call_gigachat]
    catches: the reply sent is the text made of the model's result on the
    window of the stored messages with the new message at their end. That
    window ends with the new message and has at most 17 entries. *)
Theorem handle_user_message_asks_with_newest (user_id : Z) (body : string)
    (w : world) :
  truthy (strip body) = true ->
  uncaught
    (giga env (invoke_calls w)
       (get_recent_messages
          (messages (resumed env user_id w) ++ [HumanMessage body]) 8)) = false ->
  exists payload,
    payload = get_recent_messages
                (messages (resumed env user_id w) ++ [HumanMessage body]) 8 /\
    last payload = Some (HumanMessage body) /\
    (length payload <= 17)%nat /\
    last (sent (exec (handle_user_message env user_id (Some body)) w))
      = Some (Answer (reply_text (giga env (invoke_calls w) payload))
                (Some action_keyboard) None).
Proof.
  intros Hstrip Hcaught. eexists. split; [ reflexivity | ].
  split; [ | split ].
  - rewrite get_recent_messages_last; [ apply last_snoc | lia | ].
    intros Hnil. apply app_eq_nil in Hnil. destruct Hnil as [_ Hnil]. discriminate.
  - pose proof (get_recent_messages_length_le
                  (messages (resumed env user_id w) ++ [HumanMessage body]) 8) as Hle.
    lia.
  - destruct (handle_user_message_effect env user_id body w Hstrip Hcaught)
      as (w' & stamp & stamp' & Hrun & _ & Hsent & _).
    unfold exec. rewrite Hrun. cbn [snd]. rewrite Hsent.
    rewrite last_app_cons. reflexivity.
Qed.

(** X11. When [giga.invoke] raises an exception that derives from
    [Exception] while a turn is answered (lines 119-125), the conversation
    keeps its record: [call_gigachat] hands back the error text, and storing
    it raises nothing and leaves it as the bot's turn, the last
    [SystemMessage] of [messages] and the last record of [history], with the
    role bot. *)
Theorem model_error_is_stored_as_bot_turn (user_id : Z) (w : world)
    (sess : session) (e : exn) :
  sessions w !! user_id = Some sess ->
  giga env (invoke_calls w) (get_recent_messages (messages sess) 8)
    = InvokeRaises e ->
  is_Exception e = true ->
  exists w1 w2 stamp,
    call_gigachat env (messages sess) w
      = (Returns (GIGACHAT_ERROR +:+ exn_str e), w1) /\
    store_bot_turn env user_id (GIGACHAT_ERROR +:+ exn_str e) w1
      = (Returns tt, w2) /\
    sessions w2 !! user_id
      = Some (with_bot_turn sess (GIGACHAT_ERROR +:+ exn_str e) stamp) /\
    last (messages (with_bot_turn sess (GIGACHAT_ERROR +:+ exn_str e) stamp))
      = Some (SystemMessage (GIGACHAT_ERROR +:+ exn_str e)) /\
    last (history (with_bot_turn sess (GIGACHAT_ERROR +:+ exn_str e) stamp))
      = Some {| role := "bot"; text := GIGACHAT_ERROR +:+ exn_str e;
                ts := stamp |}.
Proof.
  intros Hsess Hraise Hclass.
  eexists. eexists. eexists.
  split.
  { rewrite call_gigachat_cases, Hraise, Hclass. reflexivity. }
  split.
  { apply store_bot_turn_found. exact Hsess. }
  cbn [sessions advance]. rewrite lookup_insert_eq.
  split; [ reflexivity | ].
  unfold with_bot_turn. cbn [messages history]. rewrite !last_snoc.
  split; reflexivity.
Qed.

(** X12. After a save that returned a file name, the next message of the same
    user starts a new conversation: on a run of the handler in which the
    model call returns or raises what [call_gigachat] catches, the session
    holds the system instruction, the message and the reply, and nothing of
    what was saved. *)
Theorem message_after_resolution_starts_afresh (user_id : Z)
    (status filename body : string) (w w' : world) :
  save_dialog_to_file_and_clear env user_id status w = (Returns filename, w') ->
  truthy filename = true ->
  truthy (strip body) = true ->
  uncaught
    (giga env (invoke_calls w')
       (get_recent_messages
          [ SystemMessage SYSTEM_PROMPT; HumanMessage body ] 8)) = false ->
  exists w'' sess bot_reply,
    handle_user_message env user_id (Some body) w' = (Returns tt, w'') /\
    sessions w'' !! user_id = Some sess /\
    messages sess
      = [ SystemMessage SYSTEM_PROMPT; HumanMessage body; SystemMessage bot_reply ] /\
    map (fun item => (role item, text item)) (history sess)
      = [ ("system", SYSTEM_PROMPT); ("user", body); ("bot", bot_reply) ].
Proof.
  intros Hsave Hname Hstrip Hcaught.
  destruct (save_dialog_returned env _ _ _ _ _ Hsave Hname)
    as (old & _ & _ & _ & _ & Hgone & _).
  assert (Hfresh : resumed env user_id w'
                   = fresh_session (isoformat (clock env (utcnow_calls w')))).
  { unfold resumed. rewrite Hgone. reflexivity. }
  assert (Hcaught' : uncaught
            (giga env (invoke_calls w')
               (get_recent_messages
                  (messages (resumed env user_id w') ++ [HumanMessage body]) 8))
            = false).
  { rewrite Hfresh. exact Hcaught. }
  destruct (handle_user_message_effect env user_id body w' Hstrip Hcaught')
    as (w'' & stamp & stamp' & Hrun & Hsessions & _).
  rewrite Hfresh in Hsessions.
  exists w''. eexists. eexists. split; [ exact Hrun | ].
  rewrite Hsessions, lookup_insert_eq. split; [ reflexivity | ].
  split; reflexivity.
Qed.

(** X13. A reply that comes back after the user's session was saved and cleared
    is lost: storing it raises [KeyError], and nothing is stored or sent. *)
Theorem store_bot_turn_after_resolution (user_id : Z)
    (status filename bot_reply : string) (w w' : world) :
  save_dialog_to_file_and_clear env user_id status w = (Returns filename, w') ->
  truthy filename = true ->
  store_bot_turn env user_id bot_reply w' = (Raised (KeyError user_id), w') /\
  perform env (BotTurn user_id bot_reply) w' = w'.
Proof.
  intros Hsave Hname.
  destruct (save_dialog_returned env _ _ _ _ _ Hsave Hname)
    as (old & _ & _ & _ & _ & Hgone & _).
  assert (Hraise : store_bot_turn env user_id bot_reply w'
                   = (Raised (KeyError user_id), w'))
    by (apply store_bot_turn_missing; exact Hgone).
  split; [ exact Hraise | ].
  cbn [perform]. unfold exec. rewrite Hraise. reflexivity.
Qed.

End Conversation.

(** ** The resolution buttons *)

Section Resolution.

Context (env : environment).

Lemma with_open_keeps_sent (filename : string) (body : M unit) :
  keeps sent body -> keeps sent (with_open env filename body).
Proof.
  intros Hbody w. unfold exec, with_open, bind, file_open, file_close, file_op.
  destruct (fs_fault env (fs_calls w)); [ reflexivity | ].
  specialize (Hbody (set_files <[filename:=EmptyString]> (tick_fs w))).
  unfold exec in Hbody.
  destruct (body _) as [[[] | e] w']; cbn in Hbody;
    destruct (fs_fault env (fs_calls w')); cbn; exact Hbody.
Qed.

Lemma file_write_keeps_sent (filename data : string) :
  keeps sent (file_write env filename data).
Proof.
  intros w. unfold exec, file_write, file_op.
  destruct (fs_fault env (fs_calls w)); reflexivity.
Qed.

Lemma save_dialog_keeps_sent (user_id : Z) (status : string) :
  keeps sent (save_dialog_to_file_and_clear env user_id status).
Proof.
  unfold save_dialog_to_file_and_clear.
  apply keeps_bind; [ intros w; reflexivity | intros ss ].
  destruct (ss !! user_id) as [sess | ]; [ | apply keeps_ret ].
  destruct (history sess) as [ | item items ] eqn:Hhist;
    [ apply keeps_ret | rewrite <- Hhist ].
  apply keeps_bind; [ intros w; reflexivity | intros now ].
  apply keeps_bind.
  { apply with_open_keeps_sent.
    apply keeps_bind; [ intros w; reflexivity | intros saved ].
    apply keeps_bind; [ apply file_write_keeps_sent | intros _ ].
    apply keeps_for_each. intros it. apply file_write_keeps_sent. }
  intros _. apply keeps_bind; [ intros w; reflexivity | intros _; apply keeps_ret ].
Qed.

(** A save that raised left the sessions as they were. *)
Lemma save_dialog_raised (user_id : Z) (status : string) (w w' : world) (e : exn) :
  save_dialog_to_file_and_clear env user_id status w = (Raised e, w') ->
  sessions w' = sessions w.
Proof.
  intros Hsave.
  destruct (sessions w !! user_id) as [sess | ] eqn:Hsess.
  2:{ rewrite (save_dialog_no_session env user_id status w Hsess) in Hsave.
      discriminate. }
  assert (Hcases : history sess = [] \/ history sess <> [])
    by (destruct (history sess); [ left | right ]; congruence).
  destruct Hcases as [Hempty | Hnonempty].
  { rewrite (save_dialog_empty_history env user_id status w sess Hsess Hempty)
      in Hsave. discriminate. }
  rewrite (save_dialog_found env user_id status w sess Hsess Hnonempty) in Hsave.
  match type of Hsave with
  | context [ with_open env ?f ?body (tick_utcnow w) ] =>
      assert (Hkeep : respects eq (with_open env f body))
  end.
  { apply with_open_keeps_sessions.
    apply respects_bind; [ typeclasses eauto | apply utcnow_keeps_sessions | intros saved ].
    apply respects_bind; [ typeclasses eauto | apply file_op_keeps_sessions | intros _ ].
    apply respects_for_each; [ typeclasses eauto | intros it ].
    apply file_op_keeps_sessions. }
  specialize (Hkeep (tick_utcnow w)). unfold exec in Hkeep.
  destruct (with_open env _ _ (tick_utcnow w)) as [[[] | e'] w'']; [ discriminate | ].
  injection Hsave as _ <-. symmetry. exact Hkeep.
Qed.

(** A save with a session to write and no failing file operation. *)
Lemma save_dialog_done (user_id : Z) (status : string) (w : world) (sess : session) :
  sessions w !! user_id = Some sess -> history sess <> [] ->
  no_fault env (fs_calls w) (length (history sess) + 3) ->
  exists w',
    save_dialog_to_file_and_clear env user_id status w
      = (Returns (dialog_filename user_id status
                    (strftime_stamp (clock env (utcnow_calls w)))), w') /\
    sessions w' = delete user_id (sessions w) /\
    sent w' = sent w /\
    is_Some (files w' !! dialog_filename user_id status
                           (strftime_stamp (clock env (utcnow_calls w)))).
Proof.
  intros Hsess Hhist Hall.
  pose proof (save_dialog_keeps_sent user_id status w) as Hsent.
  pose proof (save_dialog_drops env user_id status w) as Hdrop.
  unfold exec in Hsent, Hdrop.
  rewrite (save_dialog_found env user_id status w sess Hsess Hhist) in *.
  pose proof (with_open_outcome env
    (dialog_filename user_id status (strftime_stamp (clock env (utcnow_calls w))))
    user_id status (history sess) (tick_utcnow w)) as Hout.
  destruct (with_open env _ _ (tick_utcnow w)) as [[[] | e] w''].
  2:{ exfalso. apply Hout. exact Hall. }
  destruct Hout as [_ Hfile]. cbn [snd] in Hsent, Hdrop.
  eexists. split; [ reflexivity | ]. split; [ | split; [ exact Hsent | ] ].
  - destruct Hdrop as [Hsame | Hgone]; [ | exact Hgone ].
    assert (Hlook : sessions (set_sessions (delete user_id) w'') !! user_id = None)
      by (cbn; apply lookup_delete_eq).
    rewrite Hsame, Hsess in Hlook. discriminate.
  - cbn [files set_sessions]. rewrite Hfile. eexists. reflexivity.
Qed.

(** X14. With a conversation to save and a working disk, either button writes
    the file, removes the session, sends the confirmation that names the
    file (as Markdown) and then acknowledges the callback. *)
Theorem resolution_saves_and_confirms (user_id : Z) (w : world) (sess : session) :
  sessions w !! user_id = Some sess -> history sess <> [] ->
  no_fault env (fs_calls w) (length (history sess) + 3) ->
  (exists w',
     cb_solved env user_id w = (Returns tt, w') /\
     sessions w' = delete user_id (sessions w) /\
     is_Some (files w' !! dialog_filename user_id "solved"
                            (strftime_stamp (clock env (utcnow_calls w)))) /\
     sent w'
       = (sent w ++
          [ Answer (SOLVED_SAVED
                      (dialog_filename user_id "solved"
                         (strftime_stamp (clock env (utcnow_calls w)))))
              None (Some "Markdown");
            CallbackAnswer ])%list) /\
  (exists w',
     cb_unsolved env user_id w = (Returns tt, w') /\
     sessions w' = delete user_id (sessions w) /\
     is_Some (files w' !! dialog_filename user_id "unsolved"
                            (strftime_stamp (clock env (utcnow_calls w)))) /\
     sent w'
       = (sent w ++
          [ Answer (UNSOLVED_SAVED
                      (dialog_filename user_id "unsolved"
                         (strftime_stamp (clock env (utcnow_calls w)))))
              None (Some "Markdown");
            CallbackAnswer ])%list).
Proof.
  intros Hsess Hhist Hall. split.
  - destruct (save_dialog_done user_id "solved" w sess Hsess Hhist Hall)
      as (w' & Hsave & Hsessions & Hsent & Hfile).
    unfold cb_solved. unfold bind at 1. rewrite Hsave.
    rewrite truthy_dialog_filename. unfold bind, send, modify.
    eexists. split; [ reflexivity | ]. cbn.
    split; [ exact Hsessions | ]. split; [ exact Hfile | ].
    rewrite Hsent, <- app_assoc. reflexivity.
  - destruct (save_dialog_done user_id "unsolved" w sess Hsess Hhist Hall)
      as (w' & Hsave & Hsessions & Hsent & Hfile).
    unfold cb_unsolved. unfold bind at 1. rewrite Hsave.
    rewrite truthy_dialog_filename. unfold bind, send, modify.
    eexists. split; [ reflexivity | ]. cbn.
    split; [ exact Hsessions | ]. split; [ exact Hfile | ].
    rewrite Hsent, <- app_assoc. reflexivity.
Qed.

(** X15. Without a session (no conversation yet, or a button pressed a second
    time) either handler only tells the user that the dialog is empty or
    saved already and acknowledges the callback. *)
Theorem resolution_without_session (user_id : Z) (w : world) :
  sessions w !! user_id = None ->
  cb_solved env user_id w
    = (Returns tt,
       push_sent CallbackAnswer (push_sent (Answer SOLVED_EMPTY None None) w)) /\
  cb_unsolved env user_id w
    = (Returns tt,
       push_sent CallbackAnswer (push_sent (Answer UNSOLVED_EMPTY None None) w)).
Proof.
  intros Hnone. unfold cb_solved, cb_unsolved. unfold bind.
  rewrite !(save_dialog_no_session env user_id _ w Hnone). split; reflexivity.
Qed.

(** X16. When a file operation of the save fails, the handler raises: the user
    gets no message and the callback is not acknowledged, and the session
    stays. *)
Theorem resolution_on_failing_disk (user_id : Z) (w : world) (sess : session)
    (i : nat) :
  sessions w !! user_id = Some sess -> history sess <> [] ->
  (i < length (history sess) + 3)%nat ->
  fs_fault env (fs_calls w + i) = true ->
  (exists e w',
     cb_solved env user_id w = (Raised e, w') /\
     sent w' = sent w /\ sessions w' = sessions w) /\
  (exists e w',
     cb_unsolved env user_id w = (Raised e, w') /\
     sent w' = sent w /\ sessions w' = sessions w).
Proof.
  intros Hsess Hhist Hi Hfault.
  assert (Hraises : forall status, exists e w',
            save_dialog_to_file_and_clear env user_id status w = (Raised e, w') /\
            sent w' = sent w /\ sessions w' = sessions w).
  { intros status.
    pose proof (save_dialog_keeps_sent user_id status w) as Hsent.
    unfold exec in Hsent.
    destruct (save_dialog_to_file_and_clear env user_id status w)
      as [[filename | e] w'] eqn:Hsave.
    - exfalso.
      assert (Hname : truthy filename = true).
      { rewrite (save_dialog_found env user_id status w sess Hsess Hhist) in Hsave.
        destruct (with_open env _ _ (tick_utcnow w)) as [[[] | e] w''];
          [ | discriminate ].
        injection Hsave as <- _. reflexivity. }
      destruct (save_dialog_returned env _ _ _ _ _ Hsave Hname)
        as (sess' & Hsess' & _ & Hall & _).
      rewrite Hsess in Hsess'. injection Hsess' as <-.
      rewrite (Hall i Hi) in Hfault. discriminate.
    - exists e, w'. split; [ reflexivity | ]. split; [ exact Hsent | ].
      eapply save_dialog_raised. exact Hsave. }
  split.
  - destruct (Hraises "solved") as (e & w' & Hsave & Hsent & Hsessions).
    exists e, w'. unfold cb_solved. unfold bind at 1. rewrite Hsave. auto.
  - destruct (Hraises "unsolved") as (e & w' & Hsave & Hsent & Hsessions).
    exists e, w'. unfold cb_unsolved. unfold bind at 1. rewrite Hsave. auto.
Qed.

End Resolution.

(** ** Users do not touch each other's sessions *)

Lemma same_at_preorder (other : Z) : PreOrder (same_at other).
Proof.
  split.
  - intros ss. reflexivity.
  - intros ss1 ss2 ss3 H12 H23. unfold same_at in *. congruence.
Qed.

#[local] Existing Instance same_at_preorder.

Section Isolation.

Context (env : environment) (other : Z).

Lemma init_session_same_at (user_id : Z) :
  other <> user_id -> respects (same_at other) (init_session env user_id).
Proof.
  intros Hother w. unfold exec. rewrite init_session_effect. cbn.
  apply lookup_insert_ne. congruence.
Qed.

Lemma append_message_same_at (user_id : Z) (m : BaseMessage) :
  other <> user_id -> respects (same_at other) (append_message user_id m).
Proof.
  intros Hother w. unfold exec, append_message, session_of, bind, get_sessions.
  destruct (sessions w !! user_id); cbn; [ | reflexivity ].
  apply lookup_insert_ne. congruence.
Qed.

Lemma append_history_same_at (user_id : Z) (r t : string) :
  other <> user_id -> respects (same_at other) (append_history env user_id r t).
Proof.
  intros Hother w. unfold exec, append_history, session_of, bind, get_sessions.
  destruct (sessions w !! user_id); cbn; [ | reflexivity ].
  apply lookup_insert_ne. congruence.
Qed.

Lemma store_user_turn_same_at (user_id : Z) (body : string) :
  other <> user_id -> respects (same_at other) (store_user_turn env user_id body).
Proof.
  intros Hother. unfold store_user_turn.
  apply respects_bind; [ typeclasses eauto | apply init_session_same_at; exact Hother | intros _ ].
  apply respects_bind; [ typeclasses eauto | apply append_message_same_at; exact Hother | intros _ ].
  apply append_history_same_at. exact Hother.
Qed.

Lemma store_bot_turn_same_at (user_id : Z) (bot_reply : string) :
  other <> user_id -> respects (same_at other) (store_bot_turn env user_id bot_reply).
Proof.
  intros Hother. unfold store_bot_turn.
  apply respects_bind; [ typeclasses eauto | apply append_message_same_at; exact Hother | intros _ ].
  apply append_history_same_at. exact Hother.
Qed.

Lemma sessions_dropped_same_at (user_id : Z) (ss ss' : gmap Z session) :
  other <> user_id -> sessions_dropped user_id ss ss' -> same_at other ss ss'.
Proof.
  intros Hother [-> | ->]; unfold same_at; [ reflexivity | ].
  apply lookup_delete_ne. congruence.
Qed.

(** X17. Whatever a handler, or a stretch of one, does for one user, the session
    of every other user is what it was: present or absent, with the same
    messages and history. *)
Theorem perform_leaves_other_users (a : action) (w : world) :
  other <> action_user a ->
  sessions (perform env a w) !! other = sessions w !! other.
Proof.
  destruct a as [ [ user_id | user_id body | user_id data ] | user_id body | user_id bot_reply ];
    cbn [action_user update_user perform dispatch]; intros Hother.
  - unfold cmd_start.
    apply (respects_bind (same_at other));
      [ apply init_session_same_at; exact Hother | intros _ ].
    apply respects_eq; [ typeclasses eauto | apply send_keeps_sessions ].
  - unfold handle_user_message.
    destruct (negb (truthy (strip (default EmptyString body)))).
    { apply (respects_eq (same_at other)). apply send_keeps_sessions. }
    apply (respects_bind (same_at other));
      [ apply store_user_turn_same_at; exact Hother | intros _ ].
    apply respects_bind; [ typeclasses eauto | | intros _ ].
    { apply respects_eq; [ typeclasses eauto | apply send_keeps_sessions ]. }
    apply respects_bind; [ typeclasses eauto | | intros sess ].
    { apply respects_eq; [ typeclasses eauto | apply session_of_keeps_sessions ]. }
    apply respects_bind; [ typeclasses eauto | | intros bot_reply ].
    { apply respects_eq; [ typeclasses eauto | apply call_gigachat_keeps_sessions ]. }
    apply respects_bind;
      [ typeclasses eauto | apply store_bot_turn_same_at; exact Hother | intros _ ].
    apply respects_eq; [ typeclasses eauto | apply send_keeps_sessions ].
  - destruct (String.eqb data "solved").
    { eapply sessions_dropped_same_at; [ exact Hother | apply cb_solved_drops ]. }
    destruct (String.eqb data "unsolved").
    { eapply sessions_dropped_same_at; [ exact Hother | apply cb_unsolved_drops ]. }
    reflexivity.
  - apply store_user_turn_same_at. exact Hother.
  - apply store_bot_turn_same_at. exact Hother.
Qed.

End Isolation.

(** ** The history mirrors the messages *)

Lemma truthy_false (s : string) : truthy s = false -> s = EmptyString.
Proof. destruct s; [ reflexivity | discriminate ]. Qed.

Lemma fresh_session_mirrored (stamp : string) :
  session_mirrored (fresh_session stamp).
Proof.
  exists stamp, [], []. split; [ reflexivity | ]. split; [ reflexivity | ].
  constructor.
Qed.

Lemma with_user_turn_mirrored (sess : session) (body stamp : string) :
  session_mirrored sess -> session_mirrored (with_user_turn sess body stamp).
Proof.
  intros (stamp0 & turns & records & Hmsgs & Hhist & Hturns).
  exists stamp0, (turns ++ [HumanMessage body])%list,
    (records ++ [ {| role := "user"; text := body; ts := stamp |} ])%list.
  cbn [with_user_turn messages history]. rewrite Hmsgs, Hhist.
  split; [ reflexivity | ]. split; [ reflexivity | ].
  apply Forall2_app; [ exact Hturns | ]. repeat constructor.
Qed.

Lemma with_bot_turn_mirrored (sess : session) (bot_reply stamp : string) :
  session_mirrored sess -> session_mirrored (with_bot_turn sess bot_reply stamp).
Proof.
  intros (stamp0 & turns & records & Hmsgs & Hhist & Hturns).
  exists stamp0, (turns ++ [SystemMessage bot_reply])%list,
    (records ++ [ {| role := "bot"; text := bot_reply; ts := stamp |} ])%list.
  cbn [with_bot_turn messages history]. rewrite Hmsgs, Hhist.
  split; [ reflexivity | ]. split; [ reflexivity | ].
  apply Forall2_app; [ exact Hturns | ]. repeat constructor.
Qed.

Section Invariants.

Context (env : environment).

Context (good : session -> Prop).

(** What a property of sessions must survive to hold for every session
    during a run: the creation of a session, a stored user turn, and a
    stored exchange. *)
Hypothesis good_fresh : forall stamp, good (fresh_session stamp).
Hypothesis good_user : forall sess body stamp,
  good sess -> good (with_user_turn sess body stamp).
Hypothesis good_exchange : forall sess body bot_reply stamp stamp',
  good sess ->
  good (with_bot_turn (with_user_turn sess body stamp) bot_reply stamp').

Lemma resumed_good (user_id : Z) (w : world) :
  (forall u sess, sessions w !! u = Some sess -> good sess) ->
  good (resumed env user_id w).
Proof.
  intros Hall. unfold resumed.
  destruct (sessions w !! user_id) as [sess | ] eqn:Hsess.
  - eapply Hall. exact Hsess.
  - apply good_fresh.
Qed.

Lemma insert_good (ss : gmap Z session) (user_id : Z) (sess : session) :
  (forall u s, ss !! u = Some s -> good s) -> good sess ->
  forall u s, <[user_id := sess]> ss !! u = Some s -> good s.
Proof.
  intros Hall Hsess u s. destruct (decide (u = user_id)) as [-> | Hne].
  - rewrite lookup_insert_eq. intros [= <-]. exact Hsess.
  - rewrite lookup_insert_ne by congruence. apply Hall.
Qed.

(** One stretch keeps the property. A reply stored on its own, by a
    handler that resumes after others ran, needs the property to survive a
    stored reply as well. *)
Lemma perform_keeps_good (a : action) (w : world) :
  (not_bot_turn a = false ->
   forall sess bot_reply stamp, good sess -> good (with_bot_turn sess bot_reply stamp)) ->
  (forall u sess, sessions w !! u = Some sess -> good sess) ->
  forall u sess, sessions (perform env a w) !! u = Some sess -> good sess.
Proof.
  intros Hbot Hall.
  destruct a as [ [ user_id | user_id body | user_id data ] | user_id body | user_id bot_reply ];
    cbn [perform dispatch].
  - unfold exec, cmd_start, bind. rewrite init_session_effect. cbn.
    apply insert_good; [ exact Hall | apply resumed_good; exact Hall ].
  - destruct (truthy (strip (default EmptyString body))) eqn:Hstrip.
    + destruct body as [body | ]; [ | discriminate ]. cbn in Hstrip.
      destruct (uncaught
                  (giga env (invoke_calls w)
                     (get_recent_messages
                        (messages (resumed env user_id w) ++ [HumanMessage body]) 8)))
        eqn:Hcaught.
      * destruct (handle_user_message_cut env user_id body w Hstrip Hcaught)
          as (e & w' & stamp & Hrun & Hsessions & _).
        unfold exec. rewrite Hrun. cbn [snd]. rewrite Hsessions.
        apply insert_good; [ exact Hall | ].
        apply good_user, resumed_good. exact Hall.
      * destruct (handle_user_message_effect env user_id body w Hstrip Hcaught)
          as (w' & stamp & stamp' & Hrun & Hsessions & _).
        unfold exec. rewrite Hrun. cbn [snd]. rewrite Hsessions.
        apply insert_good; [ exact Hall | ].
        apply good_exchange, resumed_good. exact Hall.
    + apply truthy_false in Hstrip. unfold exec.
      rewrite (handle_stripped_to_nothing env user_id body w Hstrip). exact Hall.
  - destruct (String.eqb data "solved").
    { pose proof (cb_solved_drops env user_id w) as [Hsame | Hgone].
      - rewrite Hsame. exact Hall.
      - rewrite Hgone. intros u sess Hsess.
        apply lookup_delete_Some in Hsess. eapply Hall. apply Hsess. }
    destruct (String.eqb data "unsolved").
    { pose proof (cb_unsolved_drops env user_id w) as [Hsame | Hgone].
      - rewrite Hsame. exact Hall.
      - rewrite Hgone. intros u sess Hsess.
        apply lookup_delete_Some in Hsess. eapply Hall. apply Hsess. }
    exact Hall.
  - unfold exec. rewrite store_user_turn_effect. cbn.
    apply insert_good; [ exact Hall | ].
    apply good_user, resumed_good. exact Hall.
  - destruct (sessions w !! user_id) as [sess | ] eqn:Hsess.
    + unfold exec. rewrite (store_bot_turn_found env user_id bot_reply w sess Hsess).
      cbn. apply insert_good; [ exact Hall | ].
      apply Hbot; [ reflexivity | ]. eapply Hall. exact Hsess.
    + unfold exec. rewrite (store_bot_turn_missing env user_id bot_reply w Hsess).
      exact Hall.
Qed.

Lemma run_keeps_good (acts : list action) (w : world) :
  (forallb not_bot_turn acts = false ->
   forall sess bot_reply stamp, good sess -> good (with_bot_turn sess bot_reply stamp)) ->
  (forall u sess, sessions w !! u = Some sess -> good sess) ->
  forall u sess, sessions (run env acts w) !! u = Some sess -> good sess.
Proof.
  revert w. induction acts as [ | a acts IH ]; intros w Hbot Hall;
    cbn [run fold_left].
  - exact Hall.
  - cbn [forallb] in Hbot. apply IH.
    + intros Hacts. apply Hbot. rewrite Hacts. apply andb_false_r.
    + apply perform_keeps_good; [ | exact Hall ].
      intros Ha. apply Hbot. rewrite Ha. reflexivity.
Qed.

End Invariants.

Section Mirror.

Context (env : environment).

(** X18. At every point of every run, interleaved or not, the history of a
    session mirrors its messages: it starts with the system record where
    the messages start with the system instruction, and then has one record
    per message, in the same order and with the same text, a user record for
    each [HumanMessage] and a bot record for each stored reply. So both
    lists have the same length, and a transcript leaves out nothing the
    model was shown. *)
Theorem history_mirrors_messages (acts : list action) (user_id : Z) (sess : session) :
  sessions (run env acts initial_world) !! user_id = Some sess ->
  session_mirrored sess /\ length (history sess) = length (messages sess).
Proof.
  intros Hsess.
  assert (Hmirror : session_mirrored sess).
  { eapply (run_keeps_good env session_mirrored); [ | | | | | exact Hsess ].
    - apply fresh_session_mirrored.
    - apply with_user_turn_mirrored.
    - intros s body bot_reply stamp stamp' Hs.
      apply with_bot_turn_mirrored, with_user_turn_mirrored. exact Hs.
    - intros _. apply with_bot_turn_mirrored.
    - intros u s Hs. cbn in Hs. rewrite lookup_empty in Hs. discriminate. }
  split; [ exact Hmirror | ].
  destruct Hmirror as (stamp & turns & records & -> & -> & Hturns).
  cbn [length]. f_equal. symmetry. eapply Forall2_length. exact Hturns.
Qed.

End Mirror.

(** ** Whole exchanges, and where the window cuts them *)

Lemma exchanges_app (pairs pairs' : list (string * string)) :
  exchanges (pairs ++ pairs') = (exchanges pairs ++ exchanges pairs')%list.
Proof. apply flat_map_app. Qed.

Lemma exchanges_length (pairs : list (string * string)) :
  length (exchanges pairs) = (2 * length pairs)%nat.
Proof.
  induction pairs as [ | p pairs IH ]; [ reflexivity | ].
  change (exchanges (p :: pairs))
    with (HumanMessage (fst p) :: SystemMessage (snd p) :: exchanges pairs).
  cbn [length]. rewrite IH. lia.
Qed.

(** X20. From the ninth message of a conversation on, the window is not eight
    exchanges: after the system instruction it starts with the reply of the
    exchange whose question was cut off, goes on with the last seven whole
    exchanges and ends with the new message. *)
Theorem window_starts_with_a_reply (pairs : list (string * string))
    (p : string * string) (body : string) :
  (8 <= length pairs)%nat ->
  pairs !! (length pairs - 8)%nat = Some p ->
  get_recent_messages
    (SystemMessage SYSTEM_PROMPT :: (exchanges pairs ++ [HumanMessage body])%list) 8
  = SystemMessage SYSTEM_PROMPT :: SystemMessage (snd p)
      :: (exchanges (drop (length pairs - 7) pairs) ++ [HumanMessage body])%list.
Proof.
  intros Hlen Hp.
  rewrite get_recent_messages_cons by lia. f_equal.
  change (Z.to_nat (2 * 8)) with 16%nat.
  pose proof (take_drop_middle pairs _ p Hp) as Hsplit.
  replace (S (length pairs - 8)) with (length pairs - 7)%nat in Hsplit by lia.
  set (rest := drop (length pairs - 7) pairs) in *.
  assert (Hfront : length (take (length pairs - 8) pairs) = (length pairs - 8)%nat)
    by (apply length_take_le; lia).
  set (front := take (length pairs - 8) pairs) in *.
  assert (Hidx : (length (exchanges pairs ++ [HumanMessage body])%list - 16)%nat
                 = (length (exchanges front) + 1)%nat).
  { rewrite length_app, !exchanges_length, Hfront. cbn [length]. lia. }
  rewrite Hidx. rewrite <- Hsplit, exchanges_app.
  cbn [exchanges flat_map fst snd app]. rewrite <- app_assoc.
  rewrite drop_app_add. reflexivity.
Qed.
(** ** Replies stand behind the messages they answer *)

Lemma replies_follow_fresh (stamp : string) :
  replies_follow (messages (fresh_session stamp)).
Proof. intros i c Hi. cbn in Hi. destruct i; discriminate. Qed.

Lemma replies_follow_user (msgs : list BaseMessage) (body : string) :
  replies_follow msgs -> replies_follow (msgs ++ [HumanMessage body]).
Proof.
  intros Hmsgs i c Hi.
  destruct (Nat.lt_ge_cases (S i) (length msgs)) as [Hin | Hout].
  - rewrite lookup_app_l in Hi by exact Hin.
    destruct (Hmsgs i c Hi) as [q Hq]. exists q.
    rewrite lookup_app_l by lia. exact Hq.
  - rewrite lookup_app_r in Hi by exact Hout.
    destruct (S i - length msgs)%nat as [ | k ]; [ discriminate | ].
    destruct k; discriminate.
Qed.

Lemma replies_follow_exchange (msgs : list BaseMessage) (body bot_reply : string) :
  replies_follow msgs ->
  replies_follow ((msgs ++ [HumanMessage body]) ++ [SystemMessage bot_reply]).
Proof.
  intros Hmsgs i c Hi.
  destruct (Nat.lt_ge_cases (S i) (length (msgs ++ [HumanMessage body])))
    as [Hin | Hout].
  - rewrite lookup_app_l in Hi by exact Hin.
    destruct (replies_follow_user msgs body Hmsgs i c Hi) as [q Hq]. exists q.
    rewrite lookup_app_l by lia. exact Hq.
  - rewrite length_app in Hout. cbn [length] in Hout.
    rewrite lookup_app_r in Hi by (rewrite length_app; cbn [length]; lia).
    rewrite length_app in Hi. cbn [length] in Hi.
    destruct (S i - (length msgs + 1))%nat as [ | k ] eqn:Hk;
      [ | destruct k; discriminate ].
    exists body. rewrite lookup_app_l by (rewrite length_app; cbn [length]; lia).
    replace i with (length msgs + 0)%nat by lia.
    rewrite lookup_app_r by lia.
    replace (length msgs + 0 - length msgs)%nat with 0%nat by lia. reflexivity.
Qed.

Section OneAfterTheOther.

Context (env : environment).

(** X19. As long as no handler resumes after another one ran (each handler
    runs to its end, or ends early after the user's turn was stored), every
    reply stored in a session stands directly behind a message of the user:
    no reply follows the system instruction or another reply. *)
Theorem replies_follow_user_messages (acts : list action) (user_id : Z)
    (sess : session) :
  forallb not_bot_turn acts = true ->
  sessions (run env acts initial_world) !! user_id = Some sess ->
  forall i c,
    messages sess !! S i = Some (SystemMessage c) ->
    exists q, messages sess !! i = Some (HumanMessage q).
Proof.
  intros Hacts Hsess.
  change (replies_follow (messages sess)).
  eapply (run_keeps_good env (fun s => replies_follow (messages s)));
    [ | | | | | exact Hsess ].
  - apply replies_follow_fresh.
  - intros s body stamp Hs. apply replies_follow_user. exact Hs.
  - intros s body bot_reply stamp stamp' Hs.
    apply replies_follow_exchange. exact Hs.
  - intros Hnot. rewrite Hacts in Hnot. discriminate.
  - intros u s Hs. cbn in Hs. rewrite lookup_empty in Hs. discriminate.
Qed.

End OneAfterTheOther.


(** ** Which saves write to the same file *)

Lemma pretty_N_go_free (x : N) (s : string) :
  free_of "_" s = true -> free_of "_" (pretty_N_go x s) = true.
Proof.
  revert s. induction (N.lt_wf_0 x) as [x _ IH]; intros s Hs.
  destruct (N.eq_dec x 0%N) as [-> | Hpos].
  - rewrite pretty_N_go_0. exact Hs.
  - rewrite pretty_N_go_step by lia. apply IH.
    + apply N.div_lt; lia.
    + cbn [free_of]. rewrite Hs, andb_true_r.
      assert (Hdigit : (x mod 10 < 10)%N) by (apply N.mod_lt; lia).
      remember (x mod 10)%N as d eqn:Hd. clear Hd.
      assert (Hcases : d = 0%N \/ d = 1%N \/ d = 2%N \/ d = 3%N \/ d = 4%N \/
                       d = 5%N \/ d = 6%N \/ d = 7%N \/ d = 8%N \/ d = 9%N)
        by lia.
      repeat (destruct Hcases as [-> | Hcases]; [ reflexivity | ]).
      rewrite Hcases. reflexivity.
Qed.

Lemma str_int_free (n : Z) : free_of "_" (str_int n) = true.
Proof.
  assert (HN : forall x : N, free_of "_" (pretty x) = true).
  { intros x. unfold pretty, pretty_N. destruct (decide (x = 0%N)); [ reflexivity | ].
    apply pretty_N_go_free. reflexivity. }
  unfold str_int, pretty, pretty_Z. destruct n as [ | p | p ].
  - reflexivity.
  - apply (HN (N.pos p)).
  - change ("-" +:+ pretty p) with (String "-" (pretty p)).
    cbn [free_of]. apply (HN (N.pos p)).
Qed.

(** Two strings that are cut at their first [c] in the same way. *)
Lemma split_at_first (c : ascii) (a b x y : string) :
  free_of c a = true -> free_of c b = true ->
  a +:+ String c x = b +:+ String c y -> a = b /\ x = y.
Proof.
  revert b. induction a as [ | e a IH ]; intros [ | d b ] Ha Hb Heq.
  - injection Heq as ->. split; reflexivity.
  - change (String c x = String d (b +:+ String c y)) in Heq.
    injection Heq as <- _. cbn [free_of] in Hb.
    rewrite Ascii.eqb_refl in Hb. discriminate.
  - change (String e (a +:+ String c x) = String c y) in Heq.
    injection Heq as -> _. cbn [free_of] in Ha.
    rewrite Ascii.eqb_refl in Ha. discriminate.
  - change (String e (a +:+ String c x) = String d (b +:+ String c y)) in Heq.
    injection Heq as -> Heq. cbn [free_of] in Ha, Hb.
    apply andb_true_iff in Ha, Hb.
    destruct (IH b (proj2 Ha) (proj2 Hb) Heq) as [-> ->]. split; reflexivity.
Qed.

(** Two strings with end pieces of the same length. *)
Lemma split_at_length (a b x y : string) :
  String.length x = String.length y ->
  a +:+ x = b +:+ y -> a = b /\ x = y.
Proof.
  intros Hlen. revert b. induction a as [ | e a IH ]; intros [ | d b ] Heq.
  - split; [ reflexivity | exact Heq ].
  - change (x = String d (b +:+ y)) in Heq. subst x.
    cbn [String.length] in Hlen. rewrite length_append in Hlen. lia.
  - change (String e (a +:+ x) = y) in Heq. subst y.
    cbn [String.length] in Hlen. rewrite length_append in Hlen. lia.
  - change (String e (a +:+ x) = String d (b +:+ y)) in Heq.
    injection Heq as -> Heq. destruct (IH b Heq) as [-> ->]. split; reflexivity.
Qed.

Lemma is_stamp_length (stamp : string) :
  is_stamp stamp = true -> String.length stamp = 15%nat.
Proof.
  unfold is_stamp. rewrite !andb_true_iff. intros [[[Hlen _] _] _].
  apply Nat.eqb_eq. exact Hlen.
Qed.

(** The file name tells the user, the status and the stamp apart. *)
Lemma dialog_filename_injective (user_id user_id' : Z)
    (status status' stamp stamp' : string) :
  is_stamp stamp = true -> is_stamp stamp' = true ->
  dialog_filename user_id status stamp = dialog_filename user_id' status' stamp' ->
  user_id = user_id' /\ status = status' /\ stamp = stamp'.
Proof.
  intros Hstamp Hstamp' Heq. unfold dialog_filename in Heq.
  apply (String.app_inj "dialog_") in Heq.
  change ("_" +:+ ?r) with (String "_" r) in Heq.
  apply split_at_first in Heq; [ | apply str_int_free | apply str_int_free ].
  destruct Heq as [Hid Hrest].
  apply (inj pretty) in Hid.
  apply split_at_length in Hrest.
  2:{ cbn [String.length]. rewrite !length_append.
      rewrite (is_stamp_length _ Hstamp), (is_stamp_length _ Hstamp').
      reflexivity. }
  destruct Hrest as [Hstatus Hrest]. injection Hrest as Hrest.
  apply (split_at_length stamp stamp' ".txt" ".txt") in Hrest; [ | reflexivity ].
  destruct Hrest as [Hrest _]. auto.
Qed.

Section SameFile.

Context (env : environment).

(** X21. Two saves that return the same file name were made for the same user,
    with the same status, and at clock readings of the same second. So the
    transcripts of different users, and a solved and an unsolved one, never
    share a file. (The clock readings are datetimes of the year 1000 or
    later.) *)
Theorem same_file_same_user_status_second
    (user_id user_id' : Z) (status status' filename : string)
    (w1 w1' w2 w2' : world) :
  save_dialog_to_file_and_clear env user_id status w1 = (Returns filename, w1') ->
  save_dialog_to_file_and_clear env user_id' status' w2 = (Returns filename, w2') ->
  truthy filename = true ->
  valid_datetime (clock env (utcnow_calls w1)) = true ->
  four_digit_year (clock env (utcnow_calls w1)) = true ->
  valid_datetime (clock env (utcnow_calls w2)) = true ->
  four_digit_year (clock env (utcnow_calls w2)) = true ->
  user_id = user_id' /\ status = status' /\
  strftime_stamp (clock env (utcnow_calls w1))
    = strftime_stamp (clock env (utcnow_calls w2)).
Proof.
  intros Hsave1 Hsave2 Hname Hvalid1 Hyear1 Hvalid2 Hyear2.
  destruct (save_dialog_returned env _ _ _ _ _ Hsave1 Hname)
    as (sess1 & _ & _ & _ & Hname1 & _).
  destruct (save_dialog_returned env _ _ _ _ _ Hsave2 Hname)
    as (sess2 & _ & _ & _ & Hname2 & _).
  rewrite Hname1 in Hname2.
  apply dialog_filename_injective in Hname2;
    [ exact Hname2 | apply strftime_stamp_shape; assumption .. ].
Qed.

End SameFile.

(** ** The further properties on the concrete run *)

(** X7 (witness). *)

Lemma init_session_creates_witness :
  sessions initial_world !! 42 = None /\
  exists w',
    init_session demo_env 42 initial_world = (Returns tt, w') /\
    sessions w' !! 42
      = Some (fresh_session (isoformat (clock demo_env (utcnow_calls initial_world)))) /\
    (forall other, other <> 42 -> sessions w' !! other = sessions initial_world !! other) /\
    utcnow_calls w' = S (utcnow_calls initial_world) /\
    files w' = files initial_world /\ sent w' = sent initial_world.
Proof.
  assert (Hnone : sessions initial_world !! 42 = None) by reflexivity.
  split; [ exact Hnone | ].
  exact (init_session_creates demo_env 42 initial_world Hnone).
Defined.

(** X8 (witness). *)
Lemma cmd_start_keeps_conversation_witness :
  sessions demo_world !! 42 = Some demo_session /\
  cmd_start demo_env 42 demo_world
    = (Returns tt, push_sent (Answer GREETING None None) demo_world) /\
  sessions (exec (cmd_start demo_env 42) demo_world) !! 42 = Some demo_session.
Proof.
  split; [ exact demo_world_session | ].
  exact (cmd_start_keeps_conversation demo_env 42 demo_world demo_session
           demo_world_session).
Defined.

(** X9 (witness): the first message of a new user, and its reply. *)
Lemma turn_stores_one_exchange_witness :
  exists w1 stamp,
    store_user_turn demo_env 42 "A" initial_world = (Returns tt, w1) /\
    sessions w1 !! 42
      = Some (with_user_turn (resumed demo_env 42 initial_world) "A" stamp) /\
    forall w2,
      sessions w2 !! 42 = sessions w1 !! 42 ->
      exists w3 stamp',
        store_bot_turn demo_env 42 "B" w2 = (Returns tt, w3) /\
        sessions w3 !! 42
          = Some (with_bot_turn
                    (with_user_turn (resumed demo_env 42 initial_world) "A" stamp)
                    "B" stamp').
Proof.
  exact (turn_stores_one_exchange demo_env 42 "A" "B" initial_world).
Defined.

(** X10 (witness). *)
Lemma handle_user_message_asks_with_newest_witness :
  truthy (strip "C") = true /\
  uncaught
    (giga demo_env (invoke_calls demo_world)
       (get_recent_messages
          (messages (resumed demo_env 42 demo_world) ++ [HumanMessage "C"]) 8))
    = false /\
  exists payload,
    payload = get_recent_messages
                (messages (resumed demo_env 42 demo_world) ++ [HumanMessage "C"]) 8 /\
    last payload = Some (HumanMessage "C") /\
    (length payload <= 17)%nat /\
    last (sent (exec (handle_user_message demo_env 42 (Some "C")) demo_world))
      = Some (Answer (reply_text (giga demo_env (invoke_calls demo_world) payload))
                (Some action_keyboard) None).
Proof.
  assert (Hstrip : truthy (strip "C") = true) by reflexivity.
  assert (Hcaught : uncaught
            (giga demo_env (invoke_calls demo_world)
               (get_recent_messages
                  (messages (resumed demo_env 42 demo_world) ++ [HumanMessage "C"]) 8))
            = false) by reflexivity.
  split; [ exact Hstrip | ]. split; [ exact Hcaught | ].
  exact (handle_user_message_asks_with_newest demo_env 42 "C" demo_world
           Hstrip Hcaught).
Defined.

(** X11 (witness): the model is down when the second message is answered. *)
Lemma model_error_is_stored_as_bot_turn_witness :
  sessions demo_world !! 42 = Some demo_session /\
  giga down_env (invoke_calls demo_world)
    (get_recent_messages (messages demo_session) 8)
    = InvokeRaises connect_error /\
  is_Exception connect_error = true /\
  exists w1 w2 stamp,
    call_gigachat down_env (messages demo_session) demo_world
      = (Returns (GIGACHAT_ERROR +:+ exn_str connect_error), w1) /\
    store_bot_turn down_env 42 (GIGACHAT_ERROR +:+ exn_str connect_error) w1
      = (Returns tt, w2) /\
    sessions w2 !! 42
      = Some (with_bot_turn demo_session
                (GIGACHAT_ERROR +:+ exn_str connect_error) stamp) /\
    last (messages (with_bot_turn demo_session
                      (GIGACHAT_ERROR +:+ exn_str connect_error) stamp))
      = Some (SystemMessage (GIGACHAT_ERROR +:+ exn_str connect_error)) /\
    last (history (with_bot_turn demo_session
                     (GIGACHAT_ERROR +:+ exn_str connect_error) stamp))
      = Some {| role := "bot"; text := GIGACHAT_ERROR +:+ exn_str connect_error;
                ts := stamp |}.
Proof.
  assert (Hraise : giga down_env (invoke_calls demo_world)
                     (get_recent_messages (messages demo_session) 8)
                   = InvokeRaises connect_error) by reflexivity.
  assert (Hclass : is_Exception connect_error = true) by reflexivity.
  split; [ exact demo_world_session | ].
  split; [ exact Hraise | ]. split; [ exact Hclass | ].
  exact (model_error_is_stored_as_bot_turn down_env 42 demo_world demo_session
           connect_error demo_world_session Hraise Hclass).
Defined.

(** X12 (witness). *)
Lemma message_after_resolution_starts_afresh_witness :
  demo_saved = (Returns demo_filename, snd demo_saved) /\
  truthy (strip "E") = true /\
  uncaught
    (giga demo_env (invoke_calls (snd demo_saved))
       (get_recent_messages [ SystemMessage SYSTEM_PROMPT; HumanMessage "E" ] 8))
    = false /\
  exists w'' sess bot_reply,
    handle_user_message demo_env 42 (Some "E") (snd demo_saved) = (Returns tt, w'') /\
    sessions w'' !! 42 = Some sess /\
    messages sess
      = [ SystemMessage SYSTEM_PROMPT; HumanMessage "E"; SystemMessage bot_reply ] /\
    map (fun item => (role item, text item)) (history sess)
      = [ ("system", SYSTEM_PROMPT); ("user", "E"); ("bot", bot_reply) ].
Proof.
  assert (Hname : truthy demo_filename = true) by reflexivity.
  assert (Hstrip : truthy (strip "E") = true) by reflexivity.
  assert (Hcaught : uncaught
            (giga demo_env (invoke_calls (snd demo_saved))
               (get_recent_messages
                  [ SystemMessage SYSTEM_PROMPT; HumanMessage "E" ] 8))
            = false) by reflexivity.
  split; [ exact demo_saved_outcome | ]. split; [ exact Hstrip | ].
  split; [ exact Hcaught | ].
  exact (message_after_resolution_starts_afresh demo_env 42 "solved" demo_filename
           "E" demo_world (snd demo_saved) demo_saved_outcome Hname Hstrip Hcaught).
Defined.

(** X13 (witness). *)
Lemma store_bot_turn_after_resolution_witness :
  demo_saved = (Returns demo_filename, snd demo_saved) /\
  store_bot_turn demo_env 42 "late" (snd demo_saved)
    = (Raised (KeyError 42), snd demo_saved) /\
  perform demo_env (BotTurn 42 "late") (snd demo_saved) = snd demo_saved.
Proof.
  assert (Hname : truthy demo_filename = true) by reflexivity.
  split; [ exact demo_saved_outcome | ].
  exact (store_bot_turn_after_resolution demo_env 42 "solved" demo_filename "late"
           demo_world (snd demo_saved) demo_saved_outcome Hname).
Defined.

(** X14 (witness). *)
Lemma resolution_saves_and_confirms_witness :
  sessions demo_world !! 42 = Some demo_session /\
  (exists w',
     cb_solved demo_env 42 demo_world = (Returns tt, w') /\
     sessions w' = delete 42 (sessions demo_world) /\
     is_Some (files w' !! dialog_filename 42 "solved"
                            (strftime_stamp (clock demo_env (utcnow_calls demo_world)))) /\
     sent w'
       = (sent demo_world ++
          [ Answer (SOLVED_SAVED
                      (dialog_filename 42 "solved"
                         (strftime_stamp (clock demo_env (utcnow_calls demo_world)))))
              None (Some "Markdown");
            CallbackAnswer ])%list) /\
  (exists w',
     cb_unsolved demo_env 42 demo_world = (Returns tt, w') /\
     sessions w' = delete 42 (sessions demo_world) /\
     is_Some (files w' !! dialog_filename 42 "unsolved"
                            (strftime_stamp (clock demo_env (utcnow_calls demo_world)))) /\
     sent w'
       = (sent demo_world ++
          [ Answer (UNSOLVED_SAVED
                      (dialog_filename 42 "unsolved"
                         (strftime_stamp (clock demo_env (utcnow_calls demo_world)))))
              None (Some "Markdown");
            CallbackAnswer ])%list).
Proof.
  assert (Hhist : history demo_session <> []) by discriminate.
  split; [ exact demo_world_session | ].
  exact (resolution_saves_and_confirms demo_env 42 demo_world demo_session
           demo_world_session Hhist (demo_no_fault _ _)).
Defined.

(** X15 (witness). *)
Lemma resolution_without_session_witness :
  sessions initial_world !! 7 = None /\
  cb_solved demo_env 7 initial_world
    = (Returns tt,
       push_sent CallbackAnswer
         (push_sent (Answer SOLVED_EMPTY None None) initial_world)) /\
  cb_unsolved demo_env 7 initial_world
    = (Returns tt,
       push_sent CallbackAnswer
         (push_sent (Answer UNSOLVED_EMPTY None None) initial_world)).
Proof.
  assert (Hnone : sessions initial_world !! 7 = None) by reflexivity.
  split; [ exact Hnone | ].
  exact (resolution_without_session demo_env 7 initial_world Hnone).
Defined.

(** X16 (witness). *)
Lemma resolution_on_failing_disk_witness :
  sessions demo_world !! 42 = Some demo_session /\
  fs_fault full_disk_env (fs_calls demo_world + 2) = true /\
  (exists e w',
     cb_solved full_disk_env 42 demo_world = (Raised e, w') /\
     sent w' = sent demo_world /\ sessions w' = sessions demo_world) /\
  (exists e w',
     cb_unsolved full_disk_env 42 demo_world = (Raised e, w') /\
     sent w' = sent demo_world /\ sessions w' = sessions demo_world).
Proof.
  assert (Hhist : history demo_session <> []) by discriminate.
  assert (Hop : (2 < length (history demo_session) + 3)%nat) by (cbn; lia).
  assert (Hfault : fs_fault full_disk_env (fs_calls demo_world + 2) = true)
    by (vm_compute; reflexivity).
  split; [ exact demo_world_session | ]. split; [ exact Hfault | ].
  exact (resolution_on_failing_disk full_disk_env 42 demo_world demo_session 2
           demo_world_session Hhist Hop Hfault).
Defined.

(** X17 (witness). *)
Lemma perform_leaves_other_users_witness :
  42 <> action_user (Deliver (Callback 7 "solved")) /\
  sessions (perform demo_env (Deliver (Callback 7 "solved")) demo_world) !! 42
    = sessions demo_world !! 42.
Proof.
  assert (Hother : 42 <> action_user (Deliver (Callback 7 "solved")))
    by discriminate.
  split; [ exact Hother | ].
  exact (perform_leaves_other_users demo_env 42 (Deliver (Callback 7 "solved"))
           demo_world Hother).
Defined.

(** X18 (witness). *)
Lemma history_mirrors_messages_witness :
  sessions (run demo_env demo_acts initial_world) !! 42 = Some demo_session /\
  session_mirrored demo_session /\
  length (history demo_session) = length (messages demo_session).
Proof.
  split; [ exact demo_world_session | ].
  exact (history_mirrors_messages demo_env demo_acts 42 demo_session
           demo_world_session).
Defined.

(** X19 (witness): the concrete run, and a third handler that ends early;
    the reply D at index 4 stands behind the message C. *)
Lemma replies_follow_user_messages_witness :
  forallb not_bot_turn cut_short_acts = true /\
  sessions (run demo_env cut_short_acts initial_world) !! 42
    = Some cut_short_session /\
  messages cut_short_session !! 4%nat = Some (SystemMessage "D") /\
  exists q, messages cut_short_session !! 3%nat = Some (HumanMessage q).
Proof.
  assert (Hacts : forallb not_bot_turn cut_short_acts = true) by reflexivity.
  assert (Hsess : sessions (run demo_env cut_short_acts initial_world) !! 42
                  = Some cut_short_session) by (vm_compute; reflexivity).
  assert (Hreply : messages cut_short_session !! 4%nat = Some (SystemMessage "D"))
    by reflexivity.
  split; [ exact Hacts | ]. split; [ exact Hsess | ]. split; [ exact Hreply | ].
  exact (replies_follow_user_messages demo_env cut_short_acts 42
           cut_short_session Hacts Hsess 3%nat "D" Hreply).
Defined.

(** X20 (witness). *)
Lemma window_starts_with_a_reply_witness :
  (8 <= length demo_pairs)%nat /\
  demo_pairs !! (length demo_pairs - 8)%nat = Some ("q1", "a1") /\
  get_recent_messages
    (SystemMessage SYSTEM_PROMPT
       :: (exchanges demo_pairs ++ [HumanMessage "q9"])%list) 8
  = SystemMessage SYSTEM_PROMPT :: SystemMessage (snd ("q1", "a1"))
      :: (exchanges (drop (length demo_pairs - 7) demo_pairs)
          ++ [HumanMessage "q9"])%list.
Proof.
  assert (Hlen : (8 <= length demo_pairs)%nat) by (cbn; lia).
  assert (Hp : demo_pairs !! (length demo_pairs - 8)%nat = Some ("q1", "a1"))
    by reflexivity.
  split; [ exact Hlen | ]. split; [ exact Hp | ].
  exact (window_starts_with_a_reply demo_pairs ("q1", "a1") "q9" Hlen Hp).
Defined.

(** X21 (witness). *)
Lemma same_file_same_user_status_second_witness :
  demo_saved = (Returns demo_filename, snd demo_saved) /\
  42 = 42 /\ "solved" = "solved" /\
  strftime_stamp (clock demo_env (utcnow_calls demo_world))
    = strftime_stamp (clock demo_env (utcnow_calls demo_world)).
Proof.
  assert (Hname : truthy demo_filename = true) by reflexivity.
  assert (Hvalid : valid_datetime (clock demo_env (utcnow_calls demo_world)) = true)
    by (vm_compute; reflexivity).
  assert (Hyear : four_digit_year (clock demo_env (utcnow_calls demo_world)) = true)
    by (vm_compute; reflexivity).
  split; [ exact demo_saved_outcome | ].
  exact (same_file_same_user_status_second demo_env 42 42 "solved" "solved"
           demo_filename demo_world (snd demo_saved) demo_world (snd demo_saved)
           demo_saved_outcome demo_saved_outcome Hname Hvalid Hyear Hvalid Hyear).
Defined.
